(** * Agentreplay Python SDK: span life cycle, redaction, SDK facade and
      the LangChain callback adapter

    A shallow embedding of
    - [sdks/python/src/agentreplay/privacy.py]   (module [Privacy]),
    - [sdks/python/src/agentreplay/sdk.py]       (module [Sdk]),
    - [sdks/python/src/agentreplay/decorators.py] (module [Decorators]),
    - [examples/langchain_callback.py]           (module [Callback]),
    followed by the properties established about them.

    Conventions.  Python [str] is [string] (ASCII); module-level globals
    ([_privacy_config], [_config], [_initialized], ...) are threaded
    explicitly; [time.time()] readings and random bits are inputs;
    Python built-ins whose text is not part of the repository ([re],
    [hashlib], [int], [float]) are section variables or record fields
    describing their observable behaviour. *)

From Stdlib Require Import ZArith List Bool Ascii String Floats.
From stdpp Require Import base option list gmap strings pretty.

Local Open Scope string_scope.
Local Open Scope list_scope.

(** ** Strings as the source uses them *)

Module Str.

(** [bool(s)] for a [str]: true exactly on non-empty strings. *)
Definition truthy (s : string) : bool :=
  match s with EmptyString => false | String _ _ => true end.

(** [s[:n]] *)
Definition take (n : nat) (s : string) : string := substring 0 n s.

(** [s[n:]] *)
Fixpoint drop (n : nat) (s : string) : string :=
  match n, s with
  | O, _ => s
  | S _, EmptyString => EmptyString
  | S m, String _ r => drop m r
  end.

(** [s[b:e]] for [0 <= b], [0 <= e]. *)
Definition slice (b e : nat) (s : string) : string := take (e - b) (drop b s).

Definition lower_char (c : ascii) : ascii :=
  let n := nat_of_ascii c in
  if (65 <=? n)%nat && (n <=? 90)%nat then ascii_of_nat (n + 32) else c.

(** [s.lower()] on ASCII text. *)
Fixpoint lower (s : string) : string :=
  match s with
  | EmptyString => EmptyString
  | String c r => String (lower_char c) (lower r)
  end.

(** [s.endswith(suffix)] *)
Definition endswith (s suffix : string) : bool :=
  let n := String.length s in
  let k := String.length suffix in
  (k <=? n)%nat && String.eqb (drop (n - k) s) suffix.

(** [s.rstrip("/")] is [rev (lstrip (rev s))]. *)
Fixpoint lstrip_slash (s : string) : string :=
  match s with
  | String "/"%char r => lstrip_slash r
  | _ => s
  end.

Definition rstrip_slash (s : string) : string :=
  String.rev (lstrip_slash (String.rev s)).

Definition hex_char (d : Z) : ascii :=
  let n := Z.to_nat d in
  if (n <? 10)%nat then ascii_of_nat (48 + n) else ascii_of_nat (87 + n).

Definition is_hex_char (c : ascii) : bool :=
  let n := nat_of_ascii c in
  ((48 <=? n)%nat && (n <=? 57)%nat) || ((97 <=? n)%nat && (n <=? 102)%nat).

(** The [k] low hexadecimal digits of [n], most significant first:
    ['%0kx' % n] whenever [0 <= n < 16^k]. *)
Fixpoint hex_fixed (k : nat) (n : Z) : string :=
  match k with
  | O => EmptyString
  | S k' =>
      String (hex_char (Z.land (Z.shiftr n (4 * Z.of_nat k')) 15))
             (hex_fixed k' n)
  end.

Fixpoint all_chars (p : ascii -> bool) (s : string) : bool :=
  match s with
  | EmptyString => true
  | String c r => p c && all_chars p r
  end.

End Str.

(** ** Payload values *)

(** The JSON-shaped data a caller attaches to a span: a [dict] is the
    list of its items in insertion order (keys are [str] and distinct),
    everything that is neither [dict], [list] nor [str] is a scalar. *)
#[local] Unset Elimination Schemes.
Inductive value : Type :=
| VNone
| VBool (b : bool)
| VInt (n : Z)
| VStr (s : string)
| VList (items : list value)
| VDict (items : list (string * value)).
#[local] Set Elimination Schemes.

(** ** privacy.py *)

Module Privacy.

(** A compiled [re.Pattern], described by what the module asks of it. *)
Record Pattern : Type := {
  (* spans (start, end) of the non-overlapping matches in a subject,
     left to right, as [finditer] yields them *)
  finditer : string -> list (nat * nat);
  (* [m.expand(template)] for the match at a span of a subject; the
     template itself when it holds no backslash *)
  expand : string -> string -> nat * nat -> string
}.

(** [pattern.search(s) is not None] *)
Definition search (p : Pattern) (s : string) : bool :=
  match finditer p s with [] => false | _ :: _ => true end.

Fixpoint splice (repl : nat * nat -> string) (s : string) (pos : nat)
    (spans : list (nat * nat)) : string :=
  match spans with
  | [] => Str.drop pos s
  | (b, e) :: rest =>
      Str.slice pos b s +:+ repl (b, e) +:+ splice repl s e rest
  end.

(** [pattern.sub(repl, s)] with [repl] a function of the match. *)
Definition sub (p : Pattern) (repl : string -> nat * nat -> string)
    (s : string) : string :=
  splice (repl s) s 0 (finditer p s).

Record PrivacyConfig : Type := {
  enabled : bool;
  redact_patterns : list Pattern;
  scrub_paths : list string;
  hash_pii : bool;
  hash_salt : string;
  custom_redactor : option (string -> string);
  redacted_text : string
}.

(** [PrivacyConfig()] *)
Definition default_config : PrivacyConfig :=
  {| enabled := true; redact_patterns := []; scrub_paths := [];
     hash_pii := false; hash_salt := ""; custom_redactor := None;
     redacted_text := "[REDACTED]" |}.

(** Keyword arguments of [configure_privacy]. *)
Record ConfigureArgs : Type := {
  a_enabled : bool;
  a_redact_patterns : option (list (string + Pattern));
  a_scrub_paths : option (list string);
  a_hash_pii : bool;
  a_hash_salt : string;
  a_custom_redactor : option (string -> string);
  a_redacted_text : string;
  a_use_builtin_patterns : bool
}.

Definition default_args : ConfigureArgs :=
  {| a_enabled := true; a_redact_patterns := None; a_scrub_paths := None;
     a_hash_pii := false; a_hash_salt := ""; a_custom_redactor := None;
     a_redacted_text := "[REDACTED]"; a_use_builtin_patterns := true |}.

Section WithBuiltins.

(** [hashlib.sha256(s.encode()).digest()], as a byte string. *)
Variable sha256 : string -> string.
(** [re.compile(s)]; [None] when it raises [re.error]. *)
Variable re_compile : string -> option Pattern.
(** [PATTERNS.values()], the ten built-in compiled patterns. *)
Variable PATTERNS : list Pattern.

(** [bytes.hex()] *)
Fixpoint bytes_hex (bs : string) : string :=
  match bs with
  | EmptyString => EmptyString
  | String c r =>
      Str.hex_fixed 2 (Z.of_nat (nat_of_ascii c)) +:+ bytes_hex r
  end.

Fixpoint compile_all (ps : list (string + Pattern))
    : option (list Pattern) :=
  match ps with
  | [] => Some []
  | inl src :: rest =>
      match re_compile src with
      | None => None
      | Some p =>
          match compile_all rest with
          | None => None
          | Some l => Some (p :: l)
          end
      end
  | inr p :: rest =>
      match compile_all rest with
      | None => None
      | Some l => Some (p :: l)
      end
  end.

(** [configure_privacy(...)]: the new [_privacy_config], or [None]
    when compiling a pattern raises. *)
Definition configure_privacy (a : ConfigureArgs) : option PrivacyConfig :=
  let builtin := if a_use_builtin_patterns a then PATTERNS else [] in
  match compile_all (default [] (a_redact_patterns a)) with
  | None => None
  | Some custom =>
      Some {| enabled := a_enabled a;
              redact_patterns := builtin ++ custom;
              scrub_paths := default [] (a_scrub_paths a);
              hash_pii := a_hash_pii a;
              hash_salt := a_hash_salt a;
              custom_redactor := a_custom_redactor a;
              redacted_text := a_redacted_text a |}
  end.

Definition _hash_value (cfg : PrivacyConfig) (v : string) : string :=
  let salted := hash_salt cfg +:+ v in
  let hash_bytes := sha256 salted in
  "[HASH:" +:+ bytes_hex (Str.take 4 hash_bytes) +:+ "]".

Definition _should_scrub_path (cfg : PrivacyConfig) (path : string)
    : bool :=
  let path_lower := Str.lower path in
  existsb
    (fun scrub_path =>
       String.eqb path_lower (Str.lower scrub_path)
       || Str.endswith path_lower ("." +:+ Str.lower scrub_path))
    (scrub_paths cfg).

(** One turn of the loop over [redact_patterns]. *)
Definition apply_pattern (cfg : PrivacyConfig) (result : string)
    (pattern : Pattern) : string :=
  if hash_pii cfg then
    sub pattern (fun s m => _hash_value cfg (Str.slice (fst m) (snd m) s))
        result
  else
    sub pattern (expand pattern (redacted_text cfg)) result.

Definition _redact_string (cfg : PrivacyConfig) (v : string) : string :=
  if negb (Str.truthy v) then v
  else
    let result :=
      match custom_redactor cfg with
      | Some f => f v
      | None => v
      end in
    fold_left (apply_pattern cfg) (redact_patterns cfg) result.

(** The path of a dict entry: [f"{path}.{k}" if path else k]. *)
Definition key_path (path k : string) : string :=
  if Str.truthy path then path +:+ "." +:+ k else k.

(** The path of a list element: [f"{path}[{i}]"]. *)
Definition index_path (path : string) (i : nat) : string :=
  path +:+ "[" +:+ pretty i +:+ "]".

Fixpoint _redact_value (cfg : PrivacyConfig) (v : value) (path : string)
    {struct v} : value :=
  if Str.truthy path && _should_scrub_path cfg path then
    VStr (redacted_text cfg)
  else
    match v with
    | VDict items =>
        VDict
          ((fix items_go (l : list (string * value)) :=
              match l with
              | [] => []
              | (k, x) :: r =>
                  (k, _redact_value cfg x (key_path path k)) :: items_go r
              end) items)
    | VList items =>
        VList
          ((fix enum_go (i : nat) (l : list value) :=
              match l with
              | [] => []
              | x :: r =>
                  _redact_value cfg x (index_path path i)
                  :: enum_go (S i) r
              end) 0%nat items)
    | VStr s => VStr (_redact_string cfg s)
    | _ => v
    end.

Definition redact_payload (cfg : PrivacyConfig) (payload : value)
    : value :=
  if negb (enabled cfg) then payload
  else _redact_value cfg payload "".

End WithBuiltins.

(** *** Convenience functions *)


(** [reset_privacy()] *)
Definition reset_privacy : PrivacyConfig := default_config.

Section Convenience.

Variable sha256 : string -> string.
Variable re_compile : string -> option Pattern.

(** [redact_string(value)] *)
Definition redact_string (cfg : PrivacyConfig) (v : string) : string :=
  if negb (enabled cfg) then v else _redact_string sha256 cfg v.

(** [hash_pii(value, salt=None)], named after the function; the record
    field of the same name is [hash_pii cfg]. *)
Definition hash_pii_value (cfg : PrivacyConfig) (v : string)
    (salt : option string) : string :=
  let salt :=
    match salt with
    | Some s => if Str.truthy s then s else hash_salt cfg
    | None => hash_salt cfg
    end in
  let salted := salt +:+ v in
  let hash_bytes := sha256 salted in
  "[HASH:" +:+ bytes_hex (Str.take 4 hash_bytes) +:+ "]".

(** [add_pattern(pattern, name=None)]: the configuration with the
    pattern appended, [None] when compiling it raises. *)
Definition add_pattern (pattern : string + Pattern) (cfg : PrivacyConfig)
    : option PrivacyConfig :=
  match
    match pattern with
    | inl src => re_compile src
    | inr p => Some p
    end
  with
  | Some p =>
      Some {| enabled := enabled cfg;
              redact_patterns := redact_patterns cfg ++ [p];
              scrub_paths := scrub_paths cfg;
              hash_pii := hash_pii cfg; hash_salt := hash_salt cfg;
              custom_redactor := custom_redactor cfg;
              redacted_text := redacted_text cfg |}
  | None => None
  end.

End Convenience.

(** *** Masks for display *)

(** ['*' * n] *)
Fixpoint stars (n : nat) : string :=
  match n with
  | O => EmptyString
  | S m => String "*"%char (stars m)
  end.

(** [c in s] for a character. *)
Fixpoint has_char (c : ascii) (s : string) : bool :=
  match s with
  | EmptyString => false
  | String d r => Ascii.eqb d c || has_char c r
  end.

(** [s.rsplit(c, 1)] when [c] occurs in [s]: the text before and after
    the last occurrence; [None] when there is none. *)
Fixpoint rsplit_once (c : ascii) (s : string) : option (string * string) :=
  match s with
  | EmptyString => None
  | String d r =>
      match rsplit_once c r with
      | Some (before, after) => Some (String d before, after)
      | None => if Ascii.eqb d c then Some (EmptyString, r) else None
      end
  end.

Definition mask_email (email : string) : string :=
  if negb (has_char "@"%char email) then email
  else
    match rsplit_once "@"%char email with
    | Some (local, domain) =>
        let masked_local :=
          if (String.length local <=? 1)%nat then "*"
          else Str.take 1 local +:+ stars (String.length local - 1) in
        masked_local +:+ "@" +:+ domain
    | None => email
    end.

Definition is_digit (c : ascii) : bool :=
  let n := nat_of_ascii c in (48 <=? n)%nat && (n <=? 57)%nat.

(** [re.sub(r'\D', '', s)] on ASCII text: the digits of [s]. *)
Fixpoint digits_of (s : string) : string :=
  match s with
  | EmptyString => EmptyString
  | String c r => if is_digit c then String c (digits_of r) else digits_of r
  end.

(** [s[-4:]] *)
Definition last4 (s : string) : string := Str.drop (String.length s - 4) s.

Definition mask_phone (phone : string) : string :=
  let digits := digits_of phone in
  if (String.length digits <? 4)%nat then stars (String.length phone)
  else "***-***-" +:+ last4 digits.

Definition mask_credit_card (cc : string) : string :=
  let digits := digits_of cc in
  if (String.length digits <? 4)%nat then stars (String.length cc)
  else "****-****-****-" +:+ last4 digits.

(** *** [privacy_context] *)

Module privacy_context.

Record t : Type := {
  extra_patterns : list (string + Pattern);
  extra_paths : list string;
  _original_patterns : list Pattern;
  _original_paths : list string
}.

(** [privacy_context(redact_patterns=.., scrub_paths=..)] *)
Definition __init__ (patterns : option (list (string + Pattern)))
    (paths : option (list string)) : t :=
  {| extra_patterns := default [] patterns; extra_paths := default [] paths;
     _original_patterns := []; _original_paths := [] |}.

Section Enter.

Variable re_compile : string -> option Pattern.

(** The loop of [__enter__] that appends the extra patterns one by one
    to [redact_patterns]; the flag is false when a [re.compile] raised,
    the patterns appended before it staying in the list. *)
Fixpoint append_patterns (extra : list (string + Pattern))
    (patterns : list Pattern) : list Pattern * bool :=
  match extra with
  | [] => (patterns, true)
  | inl src :: rest =>
      match re_compile src with
      | Some p => append_patterns rest (patterns ++ [p])
      | None => (patterns, false)
      end
  | inr p :: rest => append_patterns rest (patterns ++ [p])
  end.

(** [__enter__()]: the configuration as the block finds it and the
    context object, [None] when [re.compile] raised. *)
Definition __enter__ (self : t) (cfg : PrivacyConfig)
    : PrivacyConfig * option t :=
  let self :=
    {| extra_patterns := extra_patterns self;
       extra_paths := extra_paths self;
       _original_patterns := redact_patterns cfg;
       _original_paths := scrub_paths cfg |} in
  match append_patterns (extra_patterns self) (redact_patterns cfg) with
  | (patterns, true) =>
      ({| enabled := enabled cfg; redact_patterns := patterns;
          scrub_paths := scrub_paths cfg ++ extra_paths self;
          hash_pii := hash_pii cfg; hash_salt := hash_salt cfg;
          custom_redactor := custom_redactor cfg;
          redacted_text := redacted_text cfg |}, Some self)
  | (patterns, false) =>
      ({| enabled := enabled cfg; redact_patterns := patterns;
          scrub_paths := scrub_paths cfg;
          hash_pii := hash_pii cfg; hash_salt := hash_salt cfg;
          custom_redactor := custom_redactor cfg;
          redacted_text := redacted_text cfg |}, None)
  end.

End Enter.

(** [__exit__(exc_type, exc_val, exc_tb)], applied to the configuration
    in force when the block is left. *)
Definition __exit__ (self : t) (cfg : PrivacyConfig) : PrivacyConfig :=
  {| enabled := enabled cfg; redact_patterns := _original_patterns self;
     scrub_paths := _original_paths self;
     hash_pii := hash_pii cfg; hash_salt := hash_salt cfg;
     custom_redactor := custom_redactor cfg;
     redacted_text := redacted_text cfg |}.

End privacy_context.

End Privacy.

(** ** Exceptions, outcomes and log calls *)

Record Exception : Type := {
  exc_type : string;      (* [type(e).__name__] *)
  exc_message : string    (* [str(e)] *)
}.

Inductive Outcome (A : Type) : Type :=
| Return (a : A)
| Raise (e : Exception).
Arguments Return {A} a.
Arguments Raise {A} e.

Inductive Level : Type := DEBUG | INFO | WARNING | ERROR.

(** A call [logger.<level>(msg)]; whether a handler prints it is not
    modelled. *)
Record LogCall : Type := { log_level : Level; log_msg : string }.

(** ** The edge handed to the delivery pipeline *)

Module Models.

Inductive SpanType : Type := ROOT | TOOL_CALL.

(** One entry of [ActiveSpan.events]. *)
Record Event : Type := {
  ev_name : string;
  ev_timestamp : Z;
  ev_attributes : gmap string value
}.

(** The [payload] dict built by [ActiveSpan._send]; each optional key
    is an optional field. *)
Record Payload : Type := {
  p_input : option value;                (* payload["input"] *)
  p_output : option value;               (* payload["output"] *)
  p_attributes : option (gmap string value);
  p_events : option (list Event);
  p_error : option (string * string)     (* {"type":_, "message":_} *)
}.

(** Modelled from the spec: [agentreplay.models.AgentFlowEdge] is not in
    the source set; the record keeps the keyword arguments [_send]
    passes to its constructor. *)
Record AgentFlowEdge : Type := {
  e_tenant_id : Z;
  e_project_id : Z;
  e_agent_id : Z;
  e_session_id : Z;
  e_span_type : SpanType;
  e_timestamp_us : Z;
  e_duration_us : Z;
  e_token_count : Z;
  e_payload : Payload
}.

End Models.

(** ** The batching client *)

Module Batching.
Import Models.

(** Modelled from the spec: [agentreplay.client.AgentreplayClient] is
    not in the source set; the record keeps its constructor arguments. *)
Record AgentreplayClient : Type := {
  c_url : string;
  c_tenant_id : Z;
  c_project_id : Z;
  c_agent_id : Z;
  c_timeout : float
}.

(** Modelled from the spec: [agentreplay.batching.BatchingAgentreplayClient]
    is not in the source set.  State per section 4.5: a bounded FIFO
    buffer of closed spans, a dropped counter and a retry queue. *)
Record BatchingAgentreplayClient : Type := {
  b_client : AgentreplayClient;
  b_batch_size : Z;
  b_flush_interval : float;
  b_max_buffer_size : Z;
  _buffer : list AgentFlowEdge;
  _dropped_count : Z;
  _retry_queue : list (list AgentFlowEdge)
}.

Definition set_buffer (buf : list AgentFlowEdge) (dropped : Z)
    (b : BatchingAgentreplayClient) : BatchingAgentreplayClient :=
  {| b_client := b_client b; b_batch_size := b_batch_size b;
     b_flush_interval := b_flush_interval b;
     b_max_buffer_size := b_max_buffer_size b;
     _buffer := buf; _dropped_count := dropped;
     _retry_queue := _retry_queue b |}.

(** Modelled from the spec: [insert(span)] appends to the buffer if it
    is not full; if full, drops the oldest entry and increments the
    dropped counter (section 4.5).  Flushing belongs to the background
    task and is not part of [insert]. *)
Definition insert (e : AgentFlowEdge) (b : BatchingAgentreplayClient)
    : BatchingAgentreplayClient :=
  if (Z.of_nat (length (_buffer b)) <? b_max_buffer_size b)%Z then
    set_buffer (_buffer b ++ [e]) (_dropped_count b) b
  else
    set_buffer (tail (_buffer b) ++ [e]) (_dropped_count b + 1)%Z b.

(** [BatchingAgentreplayClient(client=.., batch_size=.., ...)] *)
Definition new (c : AgentreplayClient) (batch_size : Z)
    (flush_interval : float) (max_buffer_size : Z)
    : BatchingAgentreplayClient :=
  {| b_client := c; b_batch_size := batch_size;
     b_flush_interval := flush_interval;
     b_max_buffer_size := max_buffer_size;
     _buffer := []; _dropped_count := 0%Z; _retry_queue := [] |}.

End Batching.

(** ** sdk.py *)

Module Sdk.
Import Batching.

Record SDKConfig : Type := {
  api_key : option string;
  base_url : string;
  tenant_id : Z;
  project_id : Z;
  agent_id : Z;
  environment : string;
  service_name : string;
  enabled : bool;
  debug : bool;
  strict : bool;
  batch_size : Z;
  flush_interval : float;
  max_queue_size : Z;
  timeout : float;
  flush_timeout : float;
  capture_input : bool;
  capture_output : bool;
  redact_patterns : list string;
  max_payload_size : Z
}.

(** The module globals [_config], [_client], [_batching_client] and
    [_initialized], with the log calls made so far (oldest first). *)
Record State : Type := {
  _config : option SDKConfig;
  _client : option AgentreplayClient;
  _batching_client : option BatchingAgentreplayClient;
  _initialized : bool;
  logged : list LogCall
}.

(** The state of a freshly imported module. *)
Definition initial : State :=
  {| _config := None; _client := None; _batching_client := None;
     _initialized := false; logged := [] |}.

Definition log (lvl : Level) (msg : string) (st : State) : State :=
  {| _config := _config st; _client := _client st;
     _batching_client := _batching_client st;
     _initialized := _initialized st;
     logged := logged st ++ [ {| log_level := lvl; log_msg := msg |} ] |}.

Definition set_batching_client (b : option BatchingAgentreplayClient)
    (st : State) : State :=
  {| _config := _config st; _client := _client st;
     _batching_client := b;
     _initialized := _initialized st; logged := logged st |}.

(** Keyword arguments of [init]; every one defaults to [None]. *)
Record InitArgs : Type := {
  i_api_key : option string;
  i_base_url : option string;
  i_tenant_id : option Z;
  i_project_id : option Z;
  i_agent_id : option Z;
  i_environment : option string;
  i_service_name : option string;
  i_enabled : option bool;
  i_debug : option bool;
  i_strict : option bool;
  i_batch_size : option Z;
  i_flush_interval : option float;
  i_max_queue_size : option Z;
  i_timeout : option float;
  i_capture_input : option bool;
  i_capture_output : option bool;
  i_redact_patterns : option (list string)
}.

(** [init()] with no argument. *)
Definition no_args : InitArgs :=
  {| i_api_key := None; i_base_url := None; i_tenant_id := None;
     i_project_id := None; i_agent_id := None; i_environment := None;
     i_service_name := None; i_enabled := None; i_debug := None;
     i_strict := None; i_batch_size := None; i_flush_interval := None;
     i_max_queue_size := None; i_timeout := None;
     i_capture_input := None; i_capture_output := None;
     i_redact_patterns := None |}.

Definition missing_key_error : Exception :=
  {| exc_type := "ValueError";
     exc_message :=
       "Agentreplay: API key required in strict mode. "
       +:+ "Set AGENTREPLAY_API_KEY or pass api_key parameter." |}.

Definition not_initialized_error : Exception :=
  {| exc_type := "RuntimeError";
     exc_message := "Agentreplay SDK not initialized. Call init() first." |}.

(** Values of the dictionary [get_stats] returns. *)
Inductive Stat : Type := SBool (b : bool) | SInt (n : Z).

(** [a or b] on optional strings: [a] when it is a non-empty string. *)
Definition str_or (a : option string) (b : option string) : option string :=
  match a with
  | Some s => if Str.truthy s then Some s else b
  | None => b
  end.

(** [not s] for an optional string. *)
Definition str_falsy (a : option string) : bool :=
  match a with
  | Some s => negb (Str.truthy s)
  | None => true
  end.

Section WithEnvironment.

(** [os.environ] *)
Variable environ : gmap string string.
(** [int(s)] and [float(s)] on a string; [None] on [ValueError]. *)
Variable py_int : string -> option Z.
Variable py_float : string -> option float.

Definition _get_env (key : string) (dflt : option string)
    : option string :=
  match environ !! key with
  | Some v => Some v
  | None => dflt
  end.

Definition _get_env_bool (key : string) (dflt : bool) : bool :=
  let val := Str.lower (default "" (environ !! key)) in
  if bool_decide (val ∈ ["1"; "true"; "yes"; "on"]) then true
  else if bool_decide (val ∈ ["0"; "false"; "no"; "off"]) then false
  else dflt.

Definition _get_env_int (key : string) (dflt : Z) : Z :=
  match environ !! key with
  | None => dflt
  | Some val => default dflt (py_int val)
  end.

Definition _get_env_float (key : string) (dflt : float) : float :=
  match environ !! key with
  | None => dflt
  | Some val => default dflt (py_float val)
  end.

(** The [SDKConfig(...)] expression of [init]. *)
Definition build_config (a : InitArgs) : SDKConfig :=
  {| api_key := str_or (i_api_key a) (_get_env "AGENTREPLAY_API_KEY" None);
     base_url :=
       Str.rstrip_slash
         (default ""
            (str_or (i_base_url a)
               (_get_env "AGENTREPLAY_URL" (Some "http://localhost:8080"))));
     tenant_id :=
       default (_get_env_int "AGENTREPLAY_TENANT_ID" 1) (i_tenant_id a);
     project_id :=
       default (_get_env_int "AGENTREPLAY_PROJECT_ID" 0) (i_project_id a);
     agent_id :=
       default (_get_env_int "AGENTREPLAY_AGENT_ID" 1) (i_agent_id a);
     environment :=
       default ""
         (str_or (i_environment a)
            (_get_env "AGENTREPLAY_ENVIRONMENT" (Some "development")));
     service_name :=
       default ""
         (str_or (i_service_name a)
            (_get_env "AGENTREPLAY_SERVICE_NAME" (Some "agentreplay-app")));
     enabled :=
       default (_get_env_bool "AGENTREPLAY_ENABLED" true) (i_enabled a);
     debug :=
       default (_get_env_bool "AGENTREPLAY_DEBUG" false) (i_debug a);
     strict :=
       default (_get_env_bool "AGENTREPLAY_STRICT" false) (i_strict a);
     batch_size :=
       default (_get_env_int "AGENTREPLAY_BATCH_SIZE" 100) (i_batch_size a);
     flush_interval :=
       default (_get_env_float "AGENTREPLAY_FLUSH_INTERVAL" 5%float)
         (i_flush_interval a);
     max_queue_size :=
       default (_get_env_int "AGENTREPLAY_MAX_QUEUE_SIZE" 10000)
         (i_max_queue_size a);
     timeout :=
       default (_get_env_float "AGENTREPLAY_TIMEOUT" 30%float) (i_timeout a);
     flush_timeout := 5%float;
     capture_input :=
       default (_get_env_bool "AGENTREPLAY_CAPTURE_INPUT" true)
         (i_capture_input a);
     capture_output :=
       default (_get_env_bool "AGENTREPLAY_CAPTURE_OUTPUT" true)
         (i_capture_output a);
     redact_patterns := default [] (i_redact_patterns a);
     max_payload_size := 100000 |}%Z.

(** [api_key[-4:]] *)
Definition last4 (s : string) : string :=
  Str.drop (String.length s - 4) s.

(** The five [logger.info] calls under "Log initialization". *)
Definition log_initializing (c : SDKConfig) (st : State) : State :=
  let st := log INFO "[Agentreplay] Initializing SDK" st in
  let st := log INFO ("  base_url: " +:+ base_url c) st in
  let st := log INFO ("  tenant_id: " +:+ pretty (tenant_id c)) st in
  let st := log INFO ("  project_id: " +:+ pretty (project_id c)) st in
  let st := log INFO ("  environment: " +:+ environment c) st in
  log INFO
    ("  api_key: "
     +:+ (if str_falsy (api_key c) then "not set"
          else "***" +:+ last4 (default "" (api_key c))))
    st.

(** The body of [init] once [_config] has passed validation.  The
    constructors of the two clients and the registration of the
    [atexit] and signal handlers are taken to succeed. *)
Definition finish_init (c : SDKConfig) (st : State) : State :=
  let st := if debug c then log_initializing c st else st in
  let st :=
    if str_falsy (api_key c) && negb (strict c) then
      log WARNING
        ("[Agentreplay] No API key configured. "
         +:+ "Set AGENTREPLAY_API_KEY or pass api_key parameter.") st
    else st in
  let st :=
    if enabled c then
      let cl :=
        {| c_url := base_url c; c_tenant_id := tenant_id c;
           c_project_id := project_id c; c_agent_id := agent_id c;
           c_timeout := timeout c |} in
      {| _config := _config st; _client := Some cl;
         _batching_client :=
           Some (Batching.new cl (batch_size c) (flush_interval c)
                   (max_queue_size c));
         _initialized := _initialized st; logged := logged st |}
    else st in
  let st :=
    {| _config := _config st; _client := _client st;
       _batching_client := _batching_client st;
       _initialized := true; logged := logged st |} in
  if debug c then log INFO "[Agentreplay] SDK initialized successfully" st
  else st.

Definition init (a : InitArgs) (st : State)
    : State * Outcome (option SDKConfig) :=
  if _initialized st then
    (log DEBUG "SDK already initialized, returning existing config" st,
     Return (_config st))
  else
    let c := build_config a in
    let st :=
      {| _config := Some c; _client := _client st;
         _batching_client := _batching_client st;
         _initialized := _initialized st; logged := logged st |} in
    if strict c && str_falsy (api_key c) then
      (st, Raise missing_key_error)
    else
      (finish_init c st, Return (Some c)).

End WithEnvironment.

Definition get_batching_client (st : State)
    : Outcome (option BatchingAgentreplayClient) :=
  if negb (_initialized st) then Raise not_initialized_error
  else Return (_batching_client st).

Definition get_config (st : State) : Outcome (option SDKConfig) :=
  if negb (_initialized st) then Raise not_initialized_error
  else Return (_config st).

Definition is_initialized (st : State) : bool := _initialized st.

Definition get_stats (st : State) : gmap string Stat :=
  let stats : gmap string Stat :=
    <["debug" := SBool (from_option debug false (_config st))]>
      (<["enabled" := SBool (from_option enabled false (_config st))]>
         (<["initialized" := SBool (_initialized st)]> ∅)) in
  match _batching_client st with
  | Some b =>
      <["retry_queue_size" := SInt (Z.of_nat (length (_retry_queue b)))]>
        (<["dropped_count" := SInt (_dropped_count b)]>
           (<["queue_size" := SInt (Z.of_nat (length (_buffer b)))]> stats))
  | None => stats
  end.

(** [_config.debug if _config else False], as [shutdown] tests it. *)
Definition debug_on (st : State) : bool := from_option debug false (_config st).

(** The [try: x.close() except Exception as e: ...] block of [shutdown];
    [closed] is [Some e] when the call raises [e]. *)
Definition close_logged (what : string) (closed : option Exception)
    (st : State) : State :=
  match closed with
  | Some e =>
      if debug_on st then
        log ERROR ("[Agentreplay] Error closing " +:+ what +:+ ": "
                   +:+ exc_message e) st
      else st
  | None => st
  end.

(** [shutdown()]; the [close()] methods of the two clients are not in
    the source set: [closed_batching] and [closed_client] say whether
    the call raises. *)
Definition shutdown (closed_batching closed_client : option Exception)
    (st : State) : State :=
  if negb (_initialized st) then st
  else
    let st :=
      if debug_on st then log INFO "[Agentreplay] Shutting down SDK" st
      else st in
    let st :=
      match _batching_client st with
      | Some _ =>
          set_batching_client None
            (close_logged "batching client" closed_batching st)
      | None => st
      end in
    let st :=
      match _client st with
      | Some _ =>
          let st := close_logged "client" closed_client st in
          {| _config := _config st; _client := None;
             _batching_client := _batching_client st;
             _initialized := _initialized st; logged := logged st |}
      | None => st
      end in
    let st :=
      {| _config := _config st; _client := _client st;
         _batching_client := _batching_client st;
         _initialized := false; logged := logged st |} in
    if debug_on st then log INFO "[Agentreplay] SDK shutdown complete" st
    else st.

(** [reset()] *)
Definition reset (closed_batching closed_client : option Exception)
    (st : State) : State :=
  let st := shutdown closed_batching closed_client st in
  {| _config := None; _client := None; _batching_client := None;
     _initialized := false; logged := logged st |}.

End Sdk.

(** ** decorators.py *)

Module Decorators.
Import Models.

Module SpanKind.
Definition CHAIN := "chain".
Definition LLM := "llm".
Definition TOOL := "tool".
Definition RETRIEVER := "retriever".
Definition EMBEDDING := "embedding".
Definition GUARDRAIL := "guardrail".
Definition CACHE := "cache".
Definition HTTP := "http".
Definition DB := "db".
End SpanKind.

(** Clock readings ([time.time()]) are counted in microseconds.
    [input_data] and [output_data] hold [VNone] for Python's [None]. *)
Record ActiveSpan : Type := {
  name : string;
  kind : string;
  span_id : string;
  parent_id : option string;
  trace_id : string;
  start_time : Z;
  end_time : option Z;
  attributes : gmap string value;
  events : list Event;
  input_data : value;
  output_data : value;
  error : option Exception;
  token_usage : gmap string Z;
  _ended : bool
}.

(** [uuid.uuid4().int] from 128 random bits [r]: the RFC 4122 variant
    and version 4 are stamped over the random value. *)
Definition uuid4_int (r : Z) : Z :=
  let i := (r mod 2 ^ 128)%Z in
  let i := Z.land i (Z.lnot (Z.shiftl 0xc000 48)) in
  let i := Z.lor i (Z.shiftl 0x8000 48) in
  let i := Z.land i (Z.lnot (Z.shiftl 0xf000 64)) in
  Z.lor i (Z.shiftl 4 76).

(** [uuid.UUID.hex]: ['%032x' % self.int] *)
Definition uuid_hex (i : Z) : string := Str.hex_fixed 32 i.

(** [uuid.uuid4().hex[:16]], [r] being the random bits drawn. *)
Definition _generate_id (r : Z) : string :=
  Str.take 16 (uuid_hex (uuid4_int r)).

(** [ActiveSpan(name, kind, span_id, parent_id, trace_id)] at clock
    reading [now]; [r_span] and [r_trace] are the random bits that the
    two possible calls of [_generate_id] draw. *)
Definition __init__ (r_span r_trace now : Z) (name0 kind0 : string)
    (span_id0 parent_id0 trace_id0 : option string) : ActiveSpan :=
  {| name := name0;
     kind := kind0;
     span_id :=
       default "" (Sdk.str_or span_id0 (Some (_generate_id r_span)));
     parent_id := parent_id0;
     trace_id :=
       default "" (Sdk.str_or trace_id0 (Some (_generate_id r_trace)));
     start_time := now;
     end_time := None;
     attributes := ∅;
     events := [];
     input_data := VNone;
     output_data := VNone;
     error := None;
     token_usage := ∅;
     _ended := false |}.

Definition with_attributes (m : gmap string value) (s : ActiveSpan)
    : ActiveSpan :=
  {| name := name s; kind := kind s; span_id := span_id s;
     parent_id := parent_id s; trace_id := trace_id s;
     start_time := start_time s; end_time := end_time s;
     attributes := m; events := events s;
     input_data := input_data s; output_data := output_data s;
     error := error s; token_usage := token_usage s;
     _ended := _ended s |}.

Definition with_token_usage (m : gmap string Z) (s : ActiveSpan)
    : ActiveSpan :=
  {| name := name s; kind := kind s; span_id := span_id s;
     parent_id := parent_id s; trace_id := trace_id s;
     start_time := start_time s; end_time := end_time s;
     attributes := attributes s; events := events s;
     input_data := input_data s; output_data := output_data s;
     error := error s; token_usage := m;
     _ended := _ended s |}.

Definition set_input (data : value) (s : ActiveSpan) : ActiveSpan :=
  {| name := name s; kind := kind s; span_id := span_id s;
     parent_id := parent_id s; trace_id := trace_id s;
     start_time := start_time s; end_time := end_time s;
     attributes := attributes s; events := events s;
     input_data := data; output_data := output_data s;
     error := error s; token_usage := token_usage s;
     _ended := _ended s |}.

Definition set_output (data : value) (s : ActiveSpan) : ActiveSpan :=
  {| name := name s; kind := kind s; span_id := span_id s;
     parent_id := parent_id s; trace_id := trace_id s;
     start_time := start_time s; end_time := end_time s;
     attributes := attributes s; events := events s;
     input_data := input_data s; output_data := data;
     error := error s; token_usage := token_usage s;
     _ended := _ended s |}.

Definition set_attribute (key : string) (v : value) (s : ActiveSpan)
    : ActiveSpan :=
  with_attributes (<[key := v]> (attributes s)) s.

(** [self.attributes.update(attributes)] *)
Definition set_attributes (m : gmap string value) (s : ActiveSpan)
    : ActiveSpan :=
  with_attributes (m ∪ attributes s) s.

Definition add_event (now : Z) (ev : string)
    (attrs : option (gmap string value)) (s : ActiveSpan) : ActiveSpan :=
  {| name := name s; kind := kind s; span_id := span_id s;
     parent_id := parent_id s; trace_id := trace_id s;
     start_time := start_time s; end_time := end_time s;
     attributes := attributes s;
     events :=
       events s
       ++ [ {| ev_name := ev; ev_timestamp := now;
               ev_attributes := default ∅ attrs |} ];
     input_data := input_data s; output_data := output_data s;
     error := error s; token_usage := token_usage s;
     _ended := _ended s |}.

(** [set_error(error)]; [stack] is what [traceback.format_exc()]
    returns at the call. *)
Definition set_error (stack : string) (e : Exception) (s : ActiveSpan)
    : ActiveSpan :=
  let s :=
    {| name := name s; kind := kind s; span_id := span_id s;
       parent_id := parent_id s; trace_id := trace_id s;
       start_time := start_time s; end_time := end_time s;
       attributes := attributes s; events := events s;
       input_data := input_data s; output_data := output_data s;
       error := Some e; token_usage := token_usage s;
       _ended := _ended s |} in
  let s := set_attribute "error.type" (VStr (exc_type e)) s in
  let s := set_attribute "error.message" (VStr (exc_message e)) s in
  set_attribute "error.stack" (VStr stack) s.

(** One [if x is not None:] block of [set_token_usage]. *)
Definition set_usage_entry (key attr : string) (n : option Z)
    (s : ActiveSpan) : ActiveSpan :=
  match n with
  | Some k =>
      set_attribute attr (VInt k)
        (with_token_usage (<[key := k]> (token_usage s)) s)
  | None => s
  end.

Definition set_token_usage (prompt_tokens completion_tokens
    total_tokens : option Z) (s : ActiveSpan) : ActiveSpan :=
  let s :=
    set_usage_entry "prompt" "gen_ai.usage.prompt_tokens" prompt_tokens s in
  let s :=
    set_usage_entry "completion" "gen_ai.usage.completion_tokens"
      completion_tokens s in
  set_usage_entry "total" "gen_ai.usage.total_tokens" total_tokens s.

Definition set_model (model : string) (provider : option string)
    (s : ActiveSpan) : ActiveSpan :=
  let s := set_attribute "gen_ai.request.model" (VStr model) s in
  match provider with
  | Some p =>
      if Str.truthy p then set_attribute "gen_ai.system" (VStr p) s else s
  | None => s
  end.

(** *** [json.dumps(data, default=str)] on payload values *)

(** One character inside a JSON string literal ([ensure_ascii]). *)
Definition json_escape_char (c : ascii) : string :=
  let n := nat_of_ascii c in
  if (n =? 34)%nat then "\" +:+ String c ""
  else if (n =? 92)%nat then "\\"
  else if (n =? 10)%nat then "\n"
  else if (n =? 13)%nat then "\r"
  else if (n =? 9)%nat then "\t"
  else if (n =? 8)%nat then "\b"
  else if (n =? 12)%nat then "\f"
  else if (32 <=? n)%nat && (n <=? 126)%nat then String c ""
  else "\u" +:+ Str.hex_fixed 4 (Z.of_nat n).

Fixpoint json_escape (s : string) : string :=
  match s with
  | EmptyString => EmptyString
  | String c r => json_escape_char c +:+ json_escape r
  end.

Definition json_string (s : string) : string :=
  String (ascii_of_nat 34) (json_escape s) +:+ String (ascii_of_nat 34) "".

Fixpoint json_dumps (v : value) : string :=
  match v with
  | VNone => "null"
  | VBool true => "true"
  | VBool false => "false"
  | VInt n => pretty n
  | VStr s => json_string s
  | VList items =>
      "["
      +:+ (fix join (first : bool) (l : list value) : string :=
             match l with
             | [] => ""
             | x :: r =>
                 (if first then "" else ", ")
                 +:+ json_dumps x +:+ join false r
             end) true items
      +:+ "]"
  | VDict items =>
      "{"
      +:+ (fix join (first : bool) (l : list (string * value)) : string :=
             match l with
             | [] => ""
             | (k, x) :: r =>
                 (if first then "" else ", ")
                 +:+ json_string k +:+ ": " +:+ json_dumps x
                 +:+ join false r
             end) true items
      +:+ "}"
  end.

(** [_safe_serialize(data)] with the default [max_size=10000].  On
    payload values [json.dumps] does not raise, so the [except] branch
    has no counterpart. *)
Definition _safe_serialize (data : value) : value :=
  let serialized := json_dumps data in
  if (10000 <? Z.of_nat (String.length serialized))%Z then
    VDict [ ("__truncated", VBool true);
            ("__preview", VStr (Str.take 1000 serialized)) ]
  else data.

Definition span_type_of (k : string) : SpanType :=
  if String.eqb k SpanKind.CHAIN then ROOT
  else if String.eqb k SpanKind.LLM then TOOL_CALL
  else if String.eqb k SpanKind.TOOL then TOOL_CALL
  else if String.eqb k SpanKind.RETRIEVER then TOOL_CALL
  else if String.eqb k SpanKind.EMBEDDING then TOOL_CALL
  else ROOT.

(** [bool(x)] for an optional clock reading. *)
Definition time_truthy (t : option Z) : bool :=
  match t with
  | Some x => negb (x =? 0)%Z
  | None => false
  end.

Definition is_none (v : value) : bool :=
  match v with VNone => true | _ => false end.

(** The [payload] dict of [_send].  The dict shares [self.attributes]
    and [self.events] with the span; the record holds their contents at
    the time of the call. *)
Definition build_payload (config : Sdk.SDKConfig) (s : ActiveSpan)
    : Payload :=
  {| p_input :=
       if negb (is_none (input_data s)) && Sdk.capture_input config
       then Some (_safe_serialize (input_data s)) else None;
     p_output :=
       if negb (is_none (output_data s)) && Sdk.capture_output config
       then Some (_safe_serialize (output_data s)) else None;
     p_attributes :=
       if bool_decide (attributes s = ∅) then None
       else Some (attributes s);
     p_events :=
       match events s with [] => None | _ :: _ => Some (events s) end;
     p_error :=
       match error s with
       | Some e => Some (exc_type e, exc_message e)
       | None => None
       end |}.

Definition none_has_no (attr : string) : Exception :=
  {| exc_type := "AttributeError";
     exc_message :=
       "'NoneType' object has no attribute '" +:+ attr +:+ "'" |}.

Section WithInt.

(** [int(s, 16)] on a string, [Raise] carrying its [ValueError]. *)
Variable py_int16 : string -> Outcome Z.

(** The [except Exception as e] handler of [_send]. *)
Definition send_failed (e : Exception) (st : Sdk.State) : Sdk.State :=
  Sdk.log DEBUG ("Failed to send span: " +:+ exc_message e) st.

Definition _send (s : ActiveSpan) (st : Sdk.State) : Sdk.State :=
  if negb (Sdk.is_initialized st) then st
  else
    match Sdk.get_config st with
    | Raise e => send_failed e st
    | Return None => send_failed (none_has_no "enabled") st
    | Return (Some config) =>
        if negb (Sdk.enabled config) then st
        else
          let span_type := span_type_of (kind s) in
          let duration_us :=
            if time_truthy (end_time s)
            then (default 0 (end_time s) - start_time s)%Z else 0%Z in
          let payload := build_payload config s in
          let session_id :=
            if Str.truthy (trace_id s)
            then py_int16 (Str.take 8 (trace_id s)) else Return 0%Z in
          match session_id with
          | Raise e => send_failed e st
          | Return sid =>
              let edge :=
                {| e_tenant_id := Sdk.tenant_id config;
                   e_project_id := Sdk.project_id config;
                   e_agent_id := Sdk.agent_id config;
                   e_session_id := sid;
                   e_span_type := span_type;
                   e_timestamp_us := start_time s;
                   e_duration_us := duration_us;
                   e_token_count := default 0%Z (token_usage s !! "total");
                   e_payload := payload |} in
              match Sdk.get_batching_client st with
              | Raise e => send_failed e st
              | Return None => send_failed (none_has_no "insert") st
              | Return (Some client) =>
                  Sdk.set_batching_client
                    (Some (Batching.insert edge client)) st
              end
          end
    end.

(** [end()] at clock reading [now]. *)
Definition end_ (now : Z) (s : ActiveSpan) (st : Sdk.State)
    : ActiveSpan * Sdk.State :=
  if _ended s then (s, st)
  else
    let s :=
      {| name := name s; kind := kind s; span_id := span_id s;
         parent_id := parent_id s; trace_id := trace_id s;
         start_time := start_time s; end_time := Some now;
         attributes := attributes s; events := events s;
         input_data := input_data s; output_data := output_data s;
         error := error s; token_usage := token_usage s;
         _ended := true |} in
    (s, _send s st).

(** [__exit__(exc_type, exc_val, exc_tb)]; the reset of the
    [_current_span] context variable is not part of the model. *)
Definition __exit__ (stack : string) (exc_val : option Exception)
    (now : Z) (s : ActiveSpan) (st : Sdk.State)
    : ActiveSpan * Sdk.State :=
  let s :=
    match exc_val with
    | Some e => set_error stack e s
    | None => s
    end in
  end_ now s st.

End WithInt.

(** *** Creating spans: [trace], [start_span] and [traceable] *)

(** [d[k] = v] on a dict kept as the list of its items. *)
Fixpoint dict_set (k : string) (v : value) (items : list (string * value))
    : list (string * value) :=
  match items with
  | [] => [(k, v)]
  | (k', v') :: r =>
      if String.eqb k' k then (k', v) :: r else (k', v') :: dict_set k v r
  end.

(** [d.update(other)] *)
Definition dict_update (other items : list (string * value))
    : list (string * value) :=
  fold_left (fun d kv => dict_set (fst kv) (snd kv) d) other items.

(** The loop of [_capture_args] over [enumerate(args)], from index [i]. *)
Fixpoint capture_positional (params : list string) (i : nat)
    (args : list value) (result : list (string * value))
    : list (string * value) :=
  match args with
  | [] => result
  | arg :: rest =>
      let key :=
        match params !! i with
        | Some p => p
        | None => "arg_" +:+ pretty i
        end in
      capture_positional params (S i) rest (dict_set key arg result)
  end.

(** [_capture_args(fn, args, kwargs)], [params] being
    [list(inspect.signature(fn).parameters.keys())]. *)
Definition _capture_args (params : list string) (args : list value)
    (kwargs : list (string * value)) : list (string * value) :=
  dict_update kwargs (capture_positional params 0 args []).

(** [trace(name, kind=.., input=.., metadata=..)]; [parent] is what
    [get_current_span()] returns at the call. *)
Definition trace (parent : option ActiveSpan) (r_span r_trace now : Z)
    (name0 kind0 : string) (input : value)
    (metadata : option (gmap string value)) : ActiveSpan :=
  let span :=
    __init__ r_span r_trace now name0 kind0 None
      (span_id <$> parent) (trace_id <$> parent) in
  let span := if negb (is_none input) then set_input input span else span in
  match metadata with
  | Some m => if bool_decide (m = ∅) then span else set_attributes m span
  | None => span
  end.

Definition start_span (parent : option ActiveSpan) (r_span r_trace now : Z)
    (name0 kind0 : string) (input : value)
    (metadata : option (gmap string value)) : ActiveSpan :=
  trace parent r_span r_trace now name0 kind0 input metadata.

Section WithFunction.

Variable py_int16 : string -> Outcome Z.

(** The decorated function, run with a span as the current span: it may
    write to that span and use the SDK, and returns or raises. *)
Variable fn : ActiveSpan -> Sdk.State -> ActiveSpan * Sdk.State * Outcome value.

(** The [sync_wrapper] that [traceable(name=.., kind=.., ...)] puts
    around [fn].  [params] is the parameter list of [fn], [None] when
    [inspect.signature] raises; [stack1] and [stack2] are the tracebacks
    formatted by the two calls of [set_error]; [t0] and [t1] are the
    clock readings at the creation and at the end of the span. *)
Definition sync_wrapper (span_name kind0 : string)
    (capture_input capture_output : bool)
    (metadata : option (gmap string value)) (params : option (list string))
    (stack1 stack2 : string) (parent : option ActiveSpan)
    (r_span r_trace t0 t1 : Z) (args : list value)
    (kwargs : list (string * value)) (st : Sdk.State)
    : ActiveSpan * Sdk.State * Outcome value :=
  let span :=
    __init__ r_span r_trace t0 span_name kind0 None
      (span_id <$> parent) (trace_id <$> parent) in
  let span :=
    match metadata with
    | Some m => if bool_decide (m = ∅) then span else set_attributes m span
    | None => span
    end in
  let span :=
    if capture_input then
      match params with
      | Some ps => set_input (VDict (_capture_args ps args kwargs)) span
      | None => span
      end
    else span in
  match fn span st with
  | (span, st, Return result) =>
      let span := if capture_output then set_output result span else span in
      let (span, st) := __exit__ py_int16 stack2 None t1 span st in
      (span, st, Return result)
  | (span, st, Raise e) =>
      let span := set_error stack1 e span in
      let (span, st) := __exit__ py_int16 stack2 (Some e) t1 span st in
      (span, st, Raise e)
  end.

End WithFunction.

End Decorators.

(** ** examples/langchain_callback.py *)

Module Callback.

(** Modelled from the spec: [flowtrace.genai.GenAISpan] is not in the
    source set.  The record keeps the constructor arguments and the
    fields the handlers assign; [add_prompt], [add_completion] and
    [add_attribute] record their arguments on the span. *)
Record GenAISpan : Type := {
  g_name : string;
  g_system : string;
  g_operation_name : string;
  g_request_model : value;
  g_temperature : option value;
  g_max_tokens : option value;
  g_prompts : list (string * string);                (* role, content *)
  g_completions : list (string * string * string);   (* role, content, finish_reason *)
  g_attributes : gmap string string;
  input_tokens : option value;
  output_tokens : option value;
  total_tokens : option value
}.

Definition add_prompt (role content : string) (s : GenAISpan) : GenAISpan :=
  {| g_name := g_name s; g_system := g_system s;
     g_operation_name := g_operation_name s;
     g_request_model := g_request_model s;
     g_temperature := g_temperature s; g_max_tokens := g_max_tokens s;
     g_prompts := g_prompts s ++ [(role, content)];
     g_completions := g_completions s; g_attributes := g_attributes s;
     input_tokens := input_tokens s; output_tokens := output_tokens s;
     total_tokens := total_tokens s |}.

Definition add_completion (role content finish_reason : string)
    (s : GenAISpan) : GenAISpan :=
  {| g_name := g_name s; g_system := g_system s;
     g_operation_name := g_operation_name s;
     g_request_model := g_request_model s;
     g_temperature := g_temperature s; g_max_tokens := g_max_tokens s;
     g_prompts := g_prompts s;
     g_completions := g_completions s ++ [(role, content, finish_reason)];
     g_attributes := g_attributes s;
     input_tokens := input_tokens s; output_tokens := output_tokens s;
     total_tokens := total_tokens s |}.

Definition add_attribute (key v : string) (s : GenAISpan) : GenAISpan :=
  {| g_name := g_name s; g_system := g_system s;
     g_operation_name := g_operation_name s;
     g_request_model := g_request_model s;
     g_temperature := g_temperature s; g_max_tokens := g_max_tokens s;
     g_prompts := g_prompts s; g_completions := g_completions s;
     g_attributes := <[key := v]> (g_attributes s);
     input_tokens := input_tokens s; output_tokens := output_tokens s;
     total_tokens := total_tokens s |}.

Definition set_tokens (i o t : option value) (s : GenAISpan) : GenAISpan :=
  {| g_name := g_name s; g_system := g_system s;
     g_operation_name := g_operation_name s;
     g_request_model := g_request_model s;
     g_temperature := g_temperature s; g_max_tokens := g_max_tokens s;
     g_prompts := g_prompts s; g_completions := g_completions s;
     g_attributes := g_attributes s;
     input_tokens := i; output_tokens := o; total_tokens := t |}.

(** A [FlowtraceCallback] object: its [active_spans] table and, for
    [self.flowtrace], the calls [send_span(span, duration=...)] made so
    far (oldest first). *)
Record FlowtraceCallback : Type := {
  active_spans : gmap string (GenAISpan * Z);
  sent : list (GenAISpan * Z)
}.

(** [FlowtraceCallback()] *)
Definition new : FlowtraceCallback := {| active_spans := ∅; sent := [] |}.

(** Modelled from the spec: [flowtrace.Flowtrace.send_span] is not in
    the source set; a call hands the span over, which the model
    records. *)
Definition send_span (s : GenAISpan) (duration : Z) (cb : FlowtraceCallback)
    : FlowtraceCallback :=
  {| active_spans := active_spans cb; sent := sent cb ++ [(s, duration)] |}.

(** [needle in s] on strings. *)
Fixpoint contains (needle s : string) : bool :=
  String.prefix needle s
  || match s with
     | EmptyString => false
     | String _ r => contains needle r
     end.

Definition _detect_provider (model_name : string) : string :=
  let model_lower := Str.lower model_name in
  if contains "openai" model_lower || contains "gpt" model_lower
  then "openai"
  else if contains "anthropic" model_lower || contains "claude" model_lower
  then "anthropic"
  else if contains "cohere" model_lower then "cohere"
  else "unknown".

(** The [serialized] argument of [on_llm_start], read through its keys
    ['name'] and ['kwargs']. *)
Record Serialized : Type := {
  s_name : option string;
  s_kwargs : option (gmap string value)
}.

(** An [LLMResult]: [generations] holds the [text] of each generation,
    [llm_output] is an optional dict. *)
Record LLMResult : Type := {
  generations : list (list string);
  llm_output : option (gmap string value)
}.

(** [d.get(k)] on a payload dict. *)
Fixpoint dict_get (k : string) (items : list (string * value))
    : option value :=
  match items with
  | [] => None
  | (k', v) :: r => if String.eqb k' k then Some v else dict_get k r
  end.

(** [on_llm_start(serialized, prompts, **kwargs)]: [run_id] is
    [str(kwargs['run_id'])] when the key is there, [now_text] is
    [str(time.time())] and [now] the later clock reading. *)
Definition on_llm_start (serialized : Serialized) (prompts : list string)
    (run_id : option string) (now_text : string) (now : Z)
    (cb : FlowtraceCallback) : FlowtraceCallback :=
  let run_id := default now_text run_id in
  let model_name := default "unknown" (s_name serialized) in
  let kwargs_dict := default ∅ (s_kwargs serialized) in
  let span :=
    {| g_name := "langchain." +:+ model_name;
       g_system := _detect_provider model_name;
       g_operation_name := "completion";
       g_request_model :=
         default (VStr model_name) (kwargs_dict !! "model_name");
       g_temperature := kwargs_dict !! "temperature";
       g_max_tokens := kwargs_dict !! "max_tokens";
       g_prompts := []; g_completions := []; g_attributes := ∅;
       input_tokens := None; output_tokens := None;
       total_tokens := None |} in
  let span := fold_left (fun s p => add_prompt "user" p s) prompts span in
  {| active_spans := <[run_id := (span, now)]> (active_spans cb);
     sent := sent cb |}.

Definition index_error : Exception :=
  {| exc_type := "IndexError"; exc_message := "list index out of range" |}.

(** [type(v).__name__] *)
Definition type_name (v : value) : string :=
  match v with
  | VNone => "NoneType"
  | VBool _ => "bool"
  | VInt _ => "int"
  | VStr _ => "str"
  | VList _ => "list"
  | VDict _ => "dict"
  end.

Definition no_get_error (v : value) : Exception :=
  {| exc_type := "AttributeError";
     exc_message :=
       "'" +:+ type_name v +:+ "' object has no attribute 'get'" |}.

(** The "Extract token usage if available" block of [on_llm_end]. *)
Definition extract_usage (response : LLMResult) (span : GenAISpan)
    : Outcome GenAISpan :=
  match llm_output response with
  | None => Return span
  | Some out =>
      if bool_decide (out = ∅) then Return span
      else
        match default (VDict []) (out !! "token_usage") with
        | VDict token_usage =>
            Return
              (set_tokens (dict_get "prompt_tokens" token_usage)
                 (dict_get "completion_tokens" token_usage)
                 (dict_get "total_tokens" token_usage) span)
        | other => Raise (no_get_error other)
        end
  end.

(** [on_llm_end(response, **kwargs)]; [run_id] as in [on_llm_start]. *)
Definition on_llm_end (response : LLMResult) (run_id : option string)
    (now : Z) (cb : FlowtraceCallback) : FlowtraceCallback * Outcome unit :=
  let run_id := default "" run_id in
  match active_spans cb !! run_id with
  | None => (cb, Return tt)
  | Some (span, start_time) =>
      let cb :=
        {| active_spans := delete run_id (active_spans cb);
           sent := sent cb |} in
      match generations response with
      | [] => (cb, Raise index_error)
      | first :: _ =>
          let span :=
            fold_left (fun s text => add_completion "assistant" text "stop" s)
              first span in
          match extract_usage response span with
          | Raise e => (cb, Raise e)
          | Return span =>
              let duration := (now - start_time)%Z in
              (send_span span duration cb, Return tt)
          end
      end
  end.

(** [on_llm_error(error, **kwargs)] *)
Definition on_llm_error (error : Exception) (run_id : option string)
    (now : Z) (cb : FlowtraceCallback) : FlowtraceCallback * Outcome unit :=
  let run_id := default "" run_id in
  match active_spans cb !! run_id with
  | None => (cb, Return tt)
  | Some (span, start_time) =>
      let cb :=
        {| active_spans := delete run_id (active_spans cb);
           sent := sent cb |} in
      let span := add_attribute "error.type" (exc_type error) span in
      let span := add_attribute "error.message" (exc_message error) span in
      let duration := (now - start_time)%Z in
      (send_span span duration cb, Return tt)
  end.

(** The callbacks a framework delivers to one handler object. *)
Inductive Callback : Type :=
| LlmStart (serialized : Serialized) (prompts : list string)
    (run_id : option string) (now_text : string) (now : Z)
| LlmEnd (response : LLMResult) (run_id : option string) (now : Z)
| LlmError (error : Exception) (run_id : option string) (now : Z).

(** The key a callback reads or writes in [active_spans]. *)
Definition key_of (c : Callback) : string :=
  match c with
  | LlmStart _ _ run_id now_text _ => default now_text run_id
  | LlmEnd _ run_id _ => default "" run_id
  | LlmError _ run_id _ => default "" run_id
  end.

Definition is_start (c : Callback) : bool :=
  match c with LlmStart _ _ _ _ _ => true | _ => false end.

(** Deliver one callback; an exception raised by the handler leaves
    the object as the handler left it. *)
Definition deliver (cb : FlowtraceCallback) (c : Callback)
    : FlowtraceCallback :=
  match c with
  | LlmStart serialized prompts run_id now_text now =>
      on_llm_start serialized prompts run_id now_text now cb
  | LlmEnd response run_id now => fst (on_llm_end response run_id now cb)
  | LlmError error run_id now => fst (on_llm_error error run_id now cb)
  end.

Definition run (cb : FlowtraceCallback) (cs : list Callback)
    : FlowtraceCallback :=
  fold_left deliver cs cb.

End Callback.


(** ** Vocabulary of the statements *)





(** [[f(i, x) for i, x in enumerate(l, start)]] *)
Fixpoint map_enumerate {A B : Type} (f : nat -> A -> B) (start : nat)
    (l : list A) : list B :=
  match l with
  | [] => []
  | x :: r => f start x :: map_enumerate f (S start) r
  end.

(** What the optional custom redactor makes of a string. *)
Definition custom_result (cfg : Privacy.PrivacyConfig) (s : string) : string :=
  match Privacy.custom_redactor cfg with
  | Some f => f s
  | None => s
  end.

(** A string on which redaction has nothing to do: no pattern matches
    it and the custom redactor, if any, returns it as it is. *)
Definition untouched (cfg : Privacy.PrivacyConfig) (s : string) : Prop :=
  custom_result cfg s = s
  /\ Forall (fun p => Privacy.search p s = false) (Privacy.redact_patterns cfg).




(** ** Concrete data used to exercise the statements *)

Module Sample.

(** A literal pattern that matches nowhere, standing for a regular
    expression without a match in the subjects at hand. *)
Definition never : Privacy.Pattern :=
  {| Privacy.finditer := fun _ => []; Privacy.expand := fun t _ _ => t |}.

(** A pattern that matches the whole of any non-empty subject. *)
Definition whole : Privacy.Pattern :=
  {| Privacy.finditer :=
       fun s => if Str.truthy s then [(0%nat, String.length s)] else [];
     Privacy.expand := fun t _ _ => t |}.

(** A stand-in for the digest function. *)
Definition digest (s : string) : string := s.

Definition no_regex (s : string) : option Privacy.Pattern := None.

Definition hex_digit_value (c : ascii) : option Z :=
  let n := Z.of_nat (nat_of_ascii c) in
  if (48 <=? n)%Z && (n <=? 57)%Z then Some (n - 48)%Z
  else if (97 <=? n)%Z && (n <=? 102)%Z then Some (n - 87)%Z
  else if (65 <=? n)%Z && (n <=? 70)%Z then Some (n - 55)%Z
  else None.

Fixpoint hex_value (acc : Z) (s : string) : option Z :=
  match s with
  | EmptyString => Some acc
  | String c r =>
      match hex_digit_value c with
      | Some d => hex_value (16 * acc + d)%Z r
      | None => None
      end
  end.

(** [int(s, 16)] on non-empty runs of hexadecimal digits; the other
    spellings [int] accepts do not occur in the samples. *)
Definition int16 (s : string) : Outcome Z :=
  match s with
  | EmptyString =>
      Raise {| exc_type := "ValueError";
               exc_message := "invalid literal for int() with base 16" |}
  | _ =>
      match hex_value 0 s with
      | Some n => Return n
      | None =>
          Raise {| exc_type := "ValueError";
                   exc_message := "invalid literal for int() with base 16" |}
      end
  end.

Definition no_int (s : string) : option Z := None.
Definition no_float (s : string) : option float := None.

(** The state after [init(api_key="ar_test")] in an empty environment. *)
Definition ready : Sdk.State :=
  fst (Sdk.init ∅ no_int no_float
         {| Sdk.i_api_key := Some "ar_test"; Sdk.i_base_url := None;
            Sdk.i_tenant_id := None; Sdk.i_project_id := None;
            Sdk.i_agent_id := None; Sdk.i_environment := None;
            Sdk.i_service_name := None; Sdk.i_enabled := None;
            Sdk.i_debug := None; Sdk.i_strict := None;
            Sdk.i_batch_size := None; Sdk.i_flush_interval := None;
            Sdk.i_max_queue_size := None; Sdk.i_timeout := None;
            Sdk.i_capture_input := None; Sdk.i_capture_output := None;
            Sdk.i_redact_patterns := None |}
         Sdk.initial).

(** [ActiveSpan("login")] created at clock reading 1000. *)
Definition span : Decorators.ActiveSpan :=
  Decorators.__init__ 1 2 1000 "login" Decorators.SpanKind.CHAIN
    None None None.

Definition credentials : value :=
  VDict [("password", VStr "secret123"); ("query", VStr "hello")].

(** A started LangChain run. *)
Definition started : Callback.FlowtraceCallback :=
  Callback.on_llm_start
    {| Callback.s_name := Some "gpt-4o-mini"; Callback.s_kwargs := None |}
    ["Hello!"] (Some "run-1") "1700000000.0" 1700000000000000
    Callback.new.

Definition result : Callback.LLMResult :=
  {| Callback.generations := [["Hi."]]; Callback.llm_output := None |}.

Definition failure : Exception :=
  {| exc_type := "TimeoutError"; exc_message := "timed out" |}.

End Sample.

(** [configure_privacy(scrub_paths=["input.password"])] *)
Definition scenario_args : Privacy.ConfigureArgs :=
  {| Privacy.a_enabled := true; Privacy.a_redact_patterns := None;
     Privacy.a_scrub_paths := Some ["input.password"];
     Privacy.a_hash_pii := false; Privacy.a_hash_salt := ""; Privacy.a_custom_redactor := None;
     Privacy.a_redacted_text := "[REDACTED]"; Privacy.a_use_builtin_patterns := true |}.

Definition scenario_payload : value :=
  VDict [("input",
          VDict [("password", VStr "secret123"); ("query", VStr "hello")])].

Definition scenario_expected : value :=
  VDict [("input",
          VDict [("password", VStr "[REDACTED]"); ("query", VStr "hello")])].



(** The privacy configuration of the failing run:
    [configure_privacy(scrub_paths=["password"], use_builtin_patterns=False)]. *)
Definition scrub_password : Privacy.PrivacyConfig :=
  {| Privacy.enabled := true; Privacy.redact_patterns := [];
     Privacy.scrub_paths := ["password"]; Privacy.hash_pii := false;
     Privacy.hash_salt := ""; Privacy.custom_redactor := None;
     Privacy.redacted_text := "[REDACTED]" |}.

(** [init(strict=True)] with no API key. *)
Definition strict_without_key : Sdk.InitArgs :=
  {| Sdk.i_api_key := None; Sdk.i_base_url := None;
     Sdk.i_tenant_id := None; Sdk.i_project_id := None;
     Sdk.i_agent_id := None; Sdk.i_environment := None;
     Sdk.i_service_name := None; Sdk.i_enabled := None;
     Sdk.i_debug := None; Sdk.i_strict := Some true;
     Sdk.i_batch_size := None; Sdk.i_flush_interval := None;
     Sdk.i_max_queue_size := None; Sdk.i_timeout := None;
     Sdk.i_capture_input := None; Sdk.i_capture_output := None;
     Sdk.i_redact_patterns := None |}.


(** ** Vocabulary of the further statements *)

(** The token-usage block of [on_llm_end] can read the response: when
    [llm_output] is a non-empty dict, its ['token_usage'] entry (an
    empty dict when the key is missing) is a dict. *)
Definition usage_readable (response : Callback.LLMResult) : Prop :=
  forall out,
    Callback.llm_output response = Some out -> out <> ∅ ->
    exists d, default (VDict []) (out !! "token_usage") = VDict d.

(** The number of start callbacks in a sequence. *)
Definition starts (cs : list Callback.Callback) : nat :=
  length (filter (fun c => Callback.is_start c = true) cs).

(** The last character of a string. *)
Fixpoint last_char (s : string) : option ascii :=
  match s with
  | EmptyString => None
  | String c r =>
      match last_char r with
      | Some d => Some d
      | None => Some c
      end
  end.

(** The span as [end()] leaves it at clock reading [now]. *)
Definition closed_at (now : Z) (s : Decorators.ActiveSpan)
    : Decorators.ActiveSpan :=
  {| Decorators.name := Decorators.name s;
     Decorators.kind := Decorators.kind s;
     Decorators.span_id := Decorators.span_id s;
     Decorators.parent_id := Decorators.parent_id s;
     Decorators.trace_id := Decorators.trace_id s;
     Decorators.start_time := Decorators.start_time s;
     Decorators.end_time := Some now;
     Decorators.attributes := Decorators.attributes s;
     Decorators.events := Decorators.events s;
     Decorators.input_data := Decorators.input_data s;
     Decorators.output_data := Decorators.output_data s;
     Decorators.error := Decorators.error s;
     Decorators.token_usage := Decorators.token_usage s;
     Decorators._ended := true |}.


(** The key under which [_capture_args] stores the positional argument
    of index [i]. *)
Definition positional_key (params : list string) (i : nat) : string :=
  match params !! i with
  | Some p => p
  | None => "arg_" +:+ pretty i
  end.

(** ** Further sample data *)

(** [init(api_key="ar_test")] *)
Definition keyed_args : Sdk.InitArgs :=
  {| Sdk.i_api_key := Some "ar_test"; Sdk.i_base_url := None;
     Sdk.i_tenant_id := None; Sdk.i_project_id := None;
     Sdk.i_agent_id := None; Sdk.i_environment := None;
     Sdk.i_service_name := None; Sdk.i_enabled := None;
     Sdk.i_debug := None; Sdk.i_strict := None;
     Sdk.i_batch_size := None; Sdk.i_flush_interval := None;
     Sdk.i_max_queue_size := None; Sdk.i_timeout := None;
     Sdk.i_capture_input := None; Sdk.i_capture_output := None;
     Sdk.i_redact_patterns := None |}.

(** [init(enabled=False)] *)
Definition disabled_args : Sdk.InitArgs :=
  {| Sdk.i_api_key := None; Sdk.i_base_url := None;
     Sdk.i_tenant_id := None; Sdk.i_project_id := None;
     Sdk.i_agent_id := None; Sdk.i_environment := None;
     Sdk.i_service_name := None; Sdk.i_enabled := Some false;
     Sdk.i_debug := None; Sdk.i_strict := None;
     Sdk.i_batch_size := None; Sdk.i_flush_interval := None;
     Sdk.i_max_queue_size := None; Sdk.i_timeout := None;
     Sdk.i_capture_input := None; Sdk.i_capture_output := None;
     Sdk.i_redact_patterns := None |}.

(** The configuration and the batching client of [Sample.ready]. *)
Definition sample_config : Sdk.SDKConfig :=
  Sdk.build_config ∅ Sample.no_int Sample.no_float keyed_args.



(** A digest function with a four-byte digest. *)
Definition short_digest (s : string) : string := "0123".

(** * Properties *)

(** ** The callback adapter *)

Section CallbackFacts.
Import Callback.

Lemma on_llm_end_absent response run_id now cb :
  active_spans cb !! default "" run_id = None ->
  on_llm_end response run_id now cb = (cb, Return tt).
Proof. intros H. unfold on_llm_end. now rewrite H. Qed.

Lemma on_llm_error_absent error run_id now cb :
  active_spans cb !! default "" run_id = None ->
  on_llm_error error run_id now cb = (cb, Return tt).
Proof. intros H. unfold on_llm_error. now rewrite H. Qed.

(** The table after [on_llm_end]: the entry of the run id is gone,
    whatever the handler did afterwards. *)
Lemma on_llm_end_table response run_id now cb :
  active_spans (fst (on_llm_end response run_id now cb))
  = delete (default "" run_id) (active_spans cb).
Proof.
  unfold on_llm_end.
  destruct (active_spans cb !! default "" run_id) as [[span t0]|] eqn:E.
  - destruct (generations response) as [|g gs]; [reflexivity|].
    destruct (extract_usage response _); reflexivity.
  - simpl. symmetry. now apply delete_id.
Qed.

Lemma on_llm_error_table error run_id now cb :
  active_spans (fst (on_llm_error error run_id now cb))
  = delete (default "" run_id) (active_spans cb).
Proof.
  unfold on_llm_error.
  destruct (active_spans cb !! default "" run_id) as [[span t0]|] eqn:E.
  - reflexivity.
  - simpl. symmetry. now apply delete_id.
Qed.

(** An end or error callback empties the slot of its key. *)
Lemma deliver_closes cb c :
  is_start c = false -> active_spans (deliver cb c) !! key_of c = None.
Proof.
  destruct c as [sz ps rid nt now|resp rid now|err rid now]; simpl;
    intros H; try discriminate.
  - rewrite on_llm_end_table. apply lookup_delete_eq.
  - rewrite on_llm_error_table. apply lookup_delete_eq.
Qed.

(** A callback fills a slot only if it is a start callback for that key. *)
Lemma deliver_keeps_empty cb c k :
  (is_start c = true -> key_of c <> k) ->
  active_spans cb !! k = None ->
  active_spans (deliver cb c) !! k = None.
Proof.
  destruct c as [sz ps rid nt now|resp rid now|err rid now]; simpl;
    intros Hk Hnone.
  - rewrite lookup_insert_ne; [assumption|]. now apply Hk.
  - rewrite on_llm_end_table.
    destruct (decide (default "" rid = k)) as [->|Hne].
    + apply lookup_delete_eq.
    + now rewrite lookup_delete_ne.
  - rewrite on_llm_error_table.
    destruct (decide (default "" rid = k)) as [->|Hne].
    + apply lookup_delete_eq.
    + now rewrite lookup_delete_ne.
Qed.

Lemma run_keeps_empty cs : forall cb k,
  Forall (fun c => is_start c = true -> key_of c <> k) cs ->
  active_spans cb !! k = None ->
  active_spans (run cb cs) !! k = None.
Proof.
  induction cs as [|c cs IH]; intros cb k Hall Hnone; [exact Hnone|].
  inversion Hall as [|? ? Hc Hcs]; subst.
  unfold run. simpl. apply IH; [assumption|].
  now apply deliver_keeps_empty.
Qed.

(** An end or error callback whose key has no entry sends nothing. *)
Lemma deliver_absent cb c :
  is_start c = false ->
  active_spans cb !! key_of c = None ->
  deliver cb c = cb.
Proof.
  destruct c as [sz ps rid nt now|resp rid now|err rid now]; simpl;
    intros H Hnone; try discriminate.
  - now rewrite on_llm_end_absent.
  - now rewrite on_llm_error_absent.
Qed.

(** C9: an end or error event whose run id has no entry in
    [active_spans] is a silent no-op: the handler returns normally (no
    exception), no span is sent and the table is unchanged, the whole
    handler object being left as it was. *)
Theorem missing_run_id_is_silent_noop
    (cb : FlowtraceCallback) (response : LLMResult) (error : Exception)
    (run_id : option string) (now : Z) :
  active_spans cb !! default "" run_id = None ->
  on_llm_end response run_id now cb = (cb, Return tt)
  /\ on_llm_error error run_id now cb = (cb, Return tt).
Proof.
  intros H. split.
  - now apply on_llm_end_absent.
  - now apply on_llm_error_absent.
Qed.

(** One end or error callback sends at most one span. *)
Lemma deliver_sends_at_most_one cb c :
  is_start c = false ->
  (length (sent (deliver cb c)) <= S (length (sent cb)))%nat.
Proof.
  destruct c as [sz ps rid nt now|resp rid now|err rid now]; simpl;
    intros H; try discriminate.
  - unfold on_llm_end.
    destruct (active_spans cb !! default "" rid) as [[span t0]|];
      [|simpl; lia].
    destruct (generations resp) as [|g gs]; [simpl; lia|].
    destruct (extract_usage resp _); simpl; rewrite ?length_app; simpl; lia.
  - unfold on_llm_error.
    destruct (active_spans cb !! default "" rid) as [[span t0]|];
      simpl; rewrite ?length_app; simpl; lia.
Qed.

(** C10, as the code has it: an end or error event removes the entry
    of its run id from [active_spans]; from then on, as long as no start
    event stores a span under the same key again, every later end or
    error event with that run id sends nothing and leaves the handler
    object as it is; the event itself sends at most one span. *)
Theorem at_most_one_span_per_run_id
    (cb : FlowtraceCallback) (first : Callback) (between : list Callback)
    (later : Callback) :
  is_start first = false ->
  is_start later = false ->
  key_of later = key_of first ->
  Forall (fun c => is_start c = true -> key_of c <> key_of first) between ->
  active_spans (deliver cb first) !! key_of first = None
  /\ (length (sent (deliver cb first)) <= S (length (sent cb)))%nat
  /\ sent (deliver (run cb (first :: between)) later)
     = sent (run cb (first :: between))
  /\ deliver (run cb (first :: between)) later = run cb (first :: between).
Proof.
  intros Hfirst Hlater Hkey Hbetween.
  assert (Hgone : active_spans (run cb (first :: between)) !! key_of first
                  = None).
  { change (run cb (first :: between))
      with (run (deliver cb first) between).
    apply run_keeps_empty; [assumption|]. now apply deliver_closes. }
  assert (Heq : deliver (run cb (first :: between)) later
                = run cb (first :: between)).
  { apply deliver_absent; [assumption|]. now rewrite Hkey. }
  split; [now apply deliver_closes|].
  split; [now apply deliver_sends_at_most_one|].
  split; [now rewrite Heq | exact Heq].
Qed.

End CallbackFacts.

(** ** Span life cycle *)

Section SpanFacts.
Import Decorators.

Variable py_int16 : string -> Outcome Z.

(** C2: calling [end()] a second time returns at once: the span (its
    [end_time] included) and the SDK state (the batching client's buffer
    included) are exactly what the first call left, so the span is not
    handed over again; the model of [end()] has no exceptional result. *)
Theorem end_twice_is_end_once
    (now1 now2 : Z) (s : ActiveSpan) (st : Sdk.State) :
  let once := end_ py_int16 now1 s st in
  let twice := end_ py_int16 now2 (fst once) (snd once) in
  twice = once
  /\ _ended (fst once) = true
  /\ end_time (fst twice) = end_time (fst once)
  /\ Sdk._batching_client (snd twice) = Sdk._batching_client (snd once).
Proof.
  cbv zeta.
  assert (Hended : _ended (fst (end_ py_int16 now1 s st)) = true).
  { unfold end_. destruct (_ended s) eqn:E; simpl; [exact E|reflexivity]. }
  assert (Heq : end_ py_int16 now2 (fst (end_ py_int16 now1 s st))
                  (snd (end_ py_int16 now1 s st))
                = end_ py_int16 now1 s st).
  { unfold end_ at 1. rewrite Hended.
    now destruct (end_ py_int16 now1 s st). }
  rewrite Heq. repeat split; assumption.
Qed.

End SpanFacts.

Section MutatorFacts.
Import Decorators.

Lemma with_attributes_frame m s :
  _ended (with_attributes m s) = _ended s
  /\ end_time (with_attributes m s) = end_time s.
Proof. split; reflexivity. Qed.

Lemma set_usage_entry_frame key attr n s :
  _ended (set_usage_entry key attr n s) = _ended s
  /\ end_time (set_usage_entry key attr n s) = end_time s.
Proof. destruct n; split; reflexivity. Qed.

(** C3, as the code has it: the mutators do not consult the ended
    flag.  On a span on which [end()] has been called each of them still
    performs its update ([set_input] and [set_output] store their
    argument, [set_attribute] writes the key, [set_error] stores the
    error and its [error.*] attributes, [set_token_usage] writes the
    counts it is given); what they leave unchanged is the ended flag and
    [end_time]. *)
Theorem mutators_still_update_closed_span
    (s : ActiveSpan) (d v : value) (k stack : string) (e : Exception)
    (p c t : Z) :
  _ended s = true ->
  (input_data (set_input d s) = d
   /\ output_data (set_output d s) = d
   /\ attributes (set_attribute k v s) !! k = Some v
   /\ error (set_error stack e s) = Some e
   /\ attributes (set_error stack e s) !! "error.type"
      = Some (VStr (exc_type e))
   /\ attributes (set_error stack e s) !! "error.message"
      = Some (VStr (exc_message e))
   /\ token_usage (set_token_usage (Some p) (Some c) (Some t) s) !! "prompt"
      = Some p
   /\ token_usage (set_token_usage (Some p) (Some c) (Some t) s)
        !! "completion" = Some c
   /\ token_usage (set_token_usage (Some p) (Some c) (Some t) s) !! "total"
      = Some t)
  /\ Forall (fun s' => _ended s' = true /\ end_time s' = end_time s)
       [ set_input d s; set_output d s; set_attribute k v s;
         set_error stack e s;
         set_token_usage (Some p) (Some c) (Some t) s ].
Proof.
  intros Hended. split.
  - repeat split.
    + unfold set_attribute. simpl. apply lookup_insert_eq.
    + unfold set_error, set_attribute. simpl.
      rewrite lookup_insert_ne by discriminate.
      rewrite lookup_insert_ne by discriminate.
      apply lookup_insert_eq.
    + unfold set_error, set_attribute. simpl.
      rewrite lookup_insert_ne by discriminate.
      apply lookup_insert_eq.
    + unfold set_token_usage, set_usage_entry, set_attribute. simpl.
      rewrite lookup_insert_ne by discriminate.
      rewrite lookup_insert_ne by discriminate.
      apply lookup_insert_eq.
    + unfold set_token_usage, set_usage_entry, set_attribute. simpl.
      rewrite lookup_insert_ne by discriminate.
      apply lookup_insert_eq.
    + unfold set_token_usage, set_usage_entry, set_attribute. simpl.
      apply lookup_insert_eq.
  - repeat constructor; assumption.
Qed.

End MutatorFacts.

(** C3, as stated, fails: on the closed span obtained by ending
    [Sample.span], every one of the five mutators changes the field it
    writes. *)
Lemma mutators_not_noops_after_end :
  let closed :=
    fst (Decorators.end_ Sample.int16 2000 Sample.span Sample.ready) in
  Decorators._ended closed = true
  /\ Decorators.input_data (Decorators.set_input (VStr "late") closed)
     <> Decorators.input_data closed
  /\ Decorators.output_data (Decorators.set_output (VStr "late") closed)
     <> Decorators.output_data closed
  /\ Decorators.attributes (Decorators.set_attribute "k" (VInt 1) closed)
     <> Decorators.attributes closed
  /\ Decorators.error (Decorators.set_error "" Sample.failure closed)
     <> Decorators.error closed
  /\ Decorators.token_usage
       (Decorators.set_token_usage (Some 1%Z) None None closed)
     <> Decorators.token_usage closed.
Proof.
  cbv zeta. repeat split.
  - discriminate.
  - discriminate.
  - intros H. apply (f_equal (fun m => m !! "k")) in H.
    unfold Decorators.set_attribute in H. simpl in H.
    rewrite lookup_insert_eq in H. discriminate H.
  - discriminate.
  - intros H. apply (f_equal (fun m => m !! "prompt")) in H.
    unfold Decorators.set_token_usage, Decorators.set_usage_entry,
      Decorators.set_attribute in H. simpl in H.
    rewrite lookup_insert_eq in H. discriminate H.
Qed.

Lemma mutators_still_update_closed_span_witness :
  let closed :=
    fst (Decorators.end_ Sample.int16 2000 Sample.span Sample.ready) in
  Decorators._ended closed = true
  /\ Decorators.input_data (Decorators.set_input (VStr "late") closed)
     = VStr "late".
Proof.
  cbv zeta. split; [reflexivity|].
  exact (proj1 (proj1
    (mutators_still_update_closed_span
       (fst (Decorators.end_ Sample.int16 2000 Sample.span Sample.ready))
       (VStr "late") (VInt 1) "k" "" Sample.failure 1 2 3 eq_refl))).
Defined.

(** ** The SDK facade *)

Section SdkFacts.
Import Sdk.

Variable environ : gmap string string.
Variable py_int : string -> option Z.
Variable py_float : string -> option float.









(** An already initialized SDK: [init] hands back the existing
    configuration and validates nothing. *)
Lemma init_when_initialized (a : InitArgs) (st : State) :
  _initialized st = true ->
  snd (init environ py_int py_float a st) = Return (_config st).
Proof. intros H. unfold init. now rewrite H. Qed.

(** Whatever the state, [get_stats] writes no last-error entry. *)
Lemma get_stats_never_reports_last_error (st : State) :
  get_stats st !! "last_error" = None.
Proof.
  unfold get_stats. destruct (_batching_client st);
    repeat (rewrite lookup_insert_ne by discriminate); apply lookup_empty.
Qed.

(** With a batching client, the dropped-span count is reported. *)
Lemma get_stats_reports_dropped_count (st : State)
    (b : Batching.BatchingAgentreplayClient) :
  _batching_client st = Some b ->
  get_stats st !! "dropped_count" = Some (SInt (Batching._dropped_count b)).
Proof.
  intros H. unfold get_stats. rewrite H.
  rewrite lookup_insert_ne by discriminate. apply lookup_insert_eq.
Qed.

End SdkFacts.



(** C7 at a state with an active batching client (the SDK right after
    [init(api_key="ar_test")]): the dictionary of [get_stats] holds the
    dropped-span count, and holds no last-error entry; its keys are the
    six listed. *)
Theorem get_stats_has_no_last_error :
  Sdk._batching_client Sample.ready = Some (Batching.new
      {| Batching.c_url := "http://localhost:8080";
         Batching.c_tenant_id := 1; Batching.c_project_id := 0;
         Batching.c_agent_id := 1; Batching.c_timeout := 30%float |}
      100 5%float 10000)
  /\ Sdk.get_stats Sample.ready !! "dropped_count" = Some (Sdk.SInt 0)
  /\ Sdk.get_stats Sample.ready !! "last_error" = None
  /\ dom (Sdk.get_stats Sample.ready)
     = list_to_set
         [ "initialized"; "enabled"; "debug"; "queue_size";
           "dropped_count"; "retry_queue_size" ].
Proof. repeat split; vm_compute; reflexivity. Qed.

(** ** Generated identifiers *)

Section IdFacts.
Import Decorators.

Lemma hex_fixed_length k n : String.length (Str.hex_fixed k n) = k.
Proof. induction k as [|k IH]; simpl; [reflexivity | now rewrite IH]. Qed.

Lemma nibble_range x : (0 <= Z.land x 15 < 16)%Z.
Proof.
  change 15%Z with (Z.ones 4). rewrite Z.land_ones by lia.
  apply Z.mod_pos_bound. reflexivity.
Qed.

Lemma hex_char_is_hex d :
  (0 <= d < 16)%Z -> Str.is_hex_char (Str.hex_char d) = true.
Proof.
  intros Hd.
  assert (Hcases : In d [0; 1; 2; 3; 4; 5; 6; 7; 8; 9; 10; 11; 12; 13; 14; 15]%Z).
  { simpl. lia. }
  simpl in Hcases.
  repeat (destruct Hcases as [<-|Hcases]; [reflexivity|]).
  contradiction.
Qed.

Lemma hex_fixed_digits k n :
  Str.all_chars Str.is_hex_char (Str.hex_fixed k n) = true.
Proof.
  induction k as [|k IH]; [reflexivity|].
  cbn [Str.hex_fixed Str.all_chars].
  rewrite IH, hex_char_is_hex by apply nibble_range. reflexivity.
Qed.

Lemma substring_0_length n : forall s,
  (n <= String.length s)%nat -> String.length (substring 0 n s) = n.
Proof.
  induction n as [|n IH]; intros s Hn.
  - now destruct s.
  - destruct s as [|c r]; simpl in *; [lia|].
    rewrite IH by lia. reflexivity.
Qed.

Lemma substring_0_all_chars p n : forall s,
  Str.all_chars p s = true -> Str.all_chars p (substring 0 n s) = true.
Proof.
  induction n as [|n IH]; intros s Hs.
  - now destruct s.
  - destruct s as [|c r]; [reflexivity|].
    simpl in *. apply andb_prop in Hs as [Hc Hr].
    now rewrite Hc, IH.
Qed.

Lemma _generate_id_shape r :
  String.length (_generate_id r) = 16%nat
  /\ Str.all_chars Str.is_hex_char (_generate_id r) = true.
Proof.
  unfold _generate_id, Str.take, uuid_hex. split.
  - apply substring_0_length. rewrite hex_fixed_length. lia.
  - apply substring_0_all_chars, hex_fixed_digits.
Qed.


End IdFacts.


(** ** Redaction *)

Section PrivacyFacts.
Import Privacy.

Variable sha256 : string -> string.

Lemma search_false p s : search p s = false -> finditer p s = [].
Proof. unfold search. now destruct (finditer p s). Qed.

Lemma sub_without_match p repl s : search p s = false -> sub p repl s = s.
Proof. intros H. unfold sub. now rewrite (search_false _ _ H). Qed.

Lemma apply_pattern_without_match cfg s p :
  search p s = false -> apply_pattern sha256 cfg s p = s.
Proof.
  intros H. unfold apply_pattern.
  destruct (hash_pii cfg); now apply sub_without_match.
Qed.

Lemma patterns_without_match cfg s : forall ps,
  Forall (fun p => search p s = false) ps ->
  fold_left (apply_pattern sha256 cfg) ps s = s.
Proof.
  induction ps as [|p ps IH]; intros H; [reflexivity|].
  inversion H as [|? ? Hp Hps]; subst. simpl.
  rewrite apply_pattern_without_match by assumption. now apply IH.
Qed.

Lemma _redact_string_untouched cfg s :
  untouched cfg s -> _redact_string sha256 cfg s = s.
Proof.
  intros [Hc Hp]. unfold _redact_string.
  destruct (Str.truthy s); [|reflexivity]. simpl.
  fold (custom_result cfg s). rewrite Hc.
  now apply patterns_without_match.
Qed.

(** The scrub check comes first: at a node with a scrubbed path the
    subtree is replaced by the marker, whatever it holds. *)
Lemma _redact_value_scrubbed cfg v path :
  Str.truthy path = true -> _should_scrub_path cfg path = true ->
  _redact_value sha256 cfg v path = VStr (redacted_text cfg).
Proof. intros Hp Hs. destruct v; simpl; now rewrite Hp, Hs. Qed.

Lemma _redact_value_unfold cfg v path :
  Str.truthy path && _should_scrub_path cfg path = false ->
  _redact_value sha256 cfg v path =
  match v with
  | VDict items =>
      VDict (map (fun kv =>
                    (fst kv,
                     _redact_value sha256 cfg (snd kv)
                       (key_path path (fst kv)))) items)
  | VList items =>
      VList (map_enumerate
               (fun i x => _redact_value sha256 cfg x (index_path path i))
               0 items)
  | VStr s => VStr (_redact_string sha256 cfg s)
  | _ => v
  end.
Proof.
  intros H. destruct v as [| | | |items|items]; simpl; rewrite H;
    try reflexivity.
  - f_equal. generalize 0%nat.
    induction items as [|x r IH]; intros i; simpl; [reflexivity|].
    now rewrite IH.
  - f_equal. induction items as [|[k x] r IH]; simpl; [reflexivity|].
    now rewrite IH.
Qed.




(** C4: after [configure_privacy(scrub_paths=["input.password"])], the
    built-in patterns finding nothing in "hello", redacting the payload
    of the scenario gives the expected payload; and at every node with a
    path the scrub check comes first: if the path is scrubbed the result
    is the marker alone, for every subtree and every configuration of
    patterns, hashing and custom redactor. *)
Theorem scrub_path_checked_before_patterns
    (re_compile : string -> option Pattern) (PATTERNS : list Pattern) :
  Forall (fun p => search p "hello" = false) PATTERNS ->
  (exists cfg,
      configure_privacy re_compile PATTERNS scenario_args = Some cfg
      /\ redact_payload sha256 cfg scenario_payload = scenario_expected)
  /\ (forall cfg v path,
        path <> "" -> _should_scrub_path cfg path = true ->
        _redact_value sha256 cfg v path = VStr (redacted_text cfg)).
Proof.
  intros Hhello. split.
  - eexists. split; [reflexivity|].
    unfold redact_payload, scenario_payload, scenario_expected.
    cbn [enabled negb].
    rewrite _redact_value_unfold by reflexivity. cbn [map fst snd].
    rewrite _redact_value_unfold by reflexivity. cbn [map fst snd].
    rewrite _redact_value_scrubbed by reflexivity.
    rewrite _redact_value_unfold by reflexivity.
    rewrite _redact_string_untouched; [reflexivity|].
    split; [reflexivity|]. cbn [redact_patterns].
    now rewrite app_nil_r.
  - intros cfg v path Hpath Hscrub. apply _redact_value_scrubbed;
      [|assumption].
    destruct path; [contradiction|reflexivity].
Qed.

End PrivacyFacts.

(** The order of the two checks, on a configuration in which the
    pattern [Sample.whole] would rewrite any string: under a scrubbed
    path the marker stands alone, elsewhere the pattern is applied. *)
Example scrub_check_precedes_patterns :
  let cfg :=
    {| Privacy.enabled := true; Privacy.redact_patterns := [Sample.whole];
       Privacy.scrub_paths := ["input.password"]; Privacy.hash_pii := true;
       Privacy.hash_salt := ""; Privacy.custom_redactor := None;
       Privacy.redacted_text := "[REDACTED]" |} in
  Privacy._redact_value Sample.digest cfg (VStr "ab") "input.password"
  = VStr "[REDACTED]"
  /\ Privacy._redact_value Sample.digest cfg (VStr "ab") "input.query"
     = VStr "[HASH:6162]".
Proof. cbv zeta. split; reflexivity. Qed.

Lemma scrub_path_checked_before_patterns_witness :
  Forall (fun p => Privacy.search p "hello" = false) [Sample.never]
  /\ exists cfg,
       Privacy.configure_privacy Sample.no_regex [Sample.never] scenario_args
       = Some cfg
       /\ Privacy.redact_payload Sample.digest cfg scenario_payload
          = scenario_expected.
Proof.
  split; [repeat constructor|].
  apply (proj1 (scrub_path_checked_before_patterns Sample.digest
                  Sample.no_regex [Sample.never]
                  (List.Forall_cons _ Sample.never [] eq_refl
                     (List.Forall_nil _)))).
Defined.



(** ** Delivery *)

Section DeliveryFacts.
Import Decorators.

Variable py_int16 : string -> Outcome Z.

(** What [_send] hands to the batching client: whenever it inserts an
    edge, the payload of the edge carries the serialized input and
    output as the caller set them; the privacy configuration is not an
    input of [_send]. *)
Lemma _send_payload (s : ActiveSpan) (st : Sdk.State)
    (config : Sdk.SDKConfig) (client : Batching.BatchingAgentreplayClient)
    (sid : Z) :
  Sdk._initialized st = true ->
  Sdk._config st = Some config ->
  Sdk.enabled config = true ->
  Sdk._batching_client st = Some client ->
  (if Str.truthy (trace_id s) then py_int16 (Str.take 8 (trace_id s))
   else Return 0%Z) = Return sid ->
  exists edge,
    _send py_int16 s st
    = Sdk.set_batching_client (Some (Batching.insert edge client)) st
    /\ Models.e_payload edge = build_payload config s.
Proof.
  intros Hinit Hcfg Hen Hcl Hsid. unfold _send, Sdk.is_initialized,
    Sdk.get_config, Sdk.get_batching_client.
  rewrite Hinit, Hcfg. cbn [negb]. rewrite Hen. cbn [negb].
  rewrite Hsid, Hcl. eexists. split; reflexivity.
Qed.

End DeliveryFacts.

(** C1 at the failing input: with [scrub_password] configured and the
    SDK initialized, a span whose input is [Sample.credentials] is ended;
    the one edge in the buffer carries the input as the caller set it,
    password included, while [redact_payload] would have replaced the
    password by the marker (applied to the input alone or to the payload
    dict around it). *)
Theorem ended_span_is_buffered_unredacted :
  let s := Decorators.set_input Sample.credentials Sample.span in
  let st := snd (Decorators.end_ Sample.int16 2000 s Sample.ready) in
  Privacy.configure_privacy Sample.no_regex []
    {| Privacy.a_enabled := true; Privacy.a_redact_patterns := None;
       Privacy.a_scrub_paths := Some ["password"];
       Privacy.a_hash_pii := false; Privacy.a_hash_salt := "";
       Privacy.a_custom_redactor := None;
       Privacy.a_redacted_text := "[REDACTED]";
       Privacy.a_use_builtin_patterns := false |}
  = Some scrub_password
  /\ map (fun e => Models.p_input (Models.e_payload e))
       (from_option Batching._buffer [] (Sdk._batching_client st))
     = [Some Sample.credentials]
  /\ Privacy.redact_payload Sample.digest scrub_password Sample.credentials
     = VDict [("password", VStr "[REDACTED]"); ("query", VStr "hello")]
  /\ Privacy.redact_payload Sample.digest scrub_password
       (VDict [("input", Sample.credentials)])
     = VDict [("input",
               VDict [("password", VStr "[REDACTED]");
                      ("query", VStr "hello")])].
Proof. cbv zeta. repeat split. Qed.

Lemma missing_run_id_is_silent_noop_witness :
  Callback.active_spans Sample.started !! default "" (Some "run-2") = None
  /\ Callback.on_llm_end Sample.result (Some "run-2") 1700000001000000
       Sample.started
     = (Sample.started, Return tt)
  /\ Callback.on_llm_error Sample.failure (Some "run-2") 1700000001000000
       Sample.started
     = (Sample.started, Return tt).
Proof.
  split; [reflexivity|].
  apply (missing_run_id_is_silent_noop Sample.started Sample.result
           Sample.failure (Some "run-2") 1700000001000000).
  reflexivity.
Defined.

Lemma at_most_one_span_per_run_id_witness :
  let first := Callback.LlmEnd Sample.result (Some "run-1") 1700000001000000 in
  let later := Callback.LlmError Sample.failure (Some "run-1") 1700000002000000 in
  length (Callback.sent (Callback.run Sample.started [first])) = 1%nat
  /\ Callback.sent (Callback.deliver (Callback.run Sample.started [first]) later)
     = Callback.sent (Callback.run Sample.started [first]).
Proof.
  cbv zeta. split; [reflexivity|].
  exact (proj1 (proj2 (proj2
    (at_most_one_span_per_run_id Sample.started
       (Callback.LlmEnd Sample.result (Some "run-1") 1700000001000000)
       []
       (Callback.LlmError Sample.failure (Some "run-1") 1700000002000000)
       eq_refl eq_refl eq_refl (List.Forall_nil _))))).
Defined.

(** C10, as stated, fails: a run id that is started again after its end
    event is sent a second time by the next end event. *)
Lemma restarted_run_id_is_sent_again :
  let start :=
    Callback.LlmStart
      {| Callback.s_name := Some "gpt-4o-mini"; Callback.s_kwargs := None |}
      ["Hello!"] (Some "run-1") "1700000000.0" 1700000000000000 in
  let finish :=
    Callback.LlmEnd Sample.result (Some "run-1") 1700000001000000 in
  length (Callback.sent (Callback.run Callback.new [start; finish])) = 1%nat
  /\ length (Callback.sent
               (Callback.run Callback.new [start; finish; start; finish]))
     = 2%nat
  /\ Callback.sent
       (Callback.deliver (Callback.run Callback.new [start; finish; start])
          finish)
     <> Callback.sent (Callback.run Callback.new [start; finish; start]).
Proof.
  cbv zeta. split; [reflexivity|]. split; [reflexivity|].
  intros H. apply (f_equal length) in H. vm_compute in H. discriminate H.
Qed.

(** * Further properties *)

(** ** The callback adapter, start to end *)

Section CallbackRoundTrip.
Import Callback.

Lemma add_prompts_fields ps : forall s,
  let s' := fold_left (fun s p => add_prompt "user" p s) ps s in
  g_prompts s' = g_prompts s ++ map (fun p => ("user", p)) ps
  /\ g_completions s' = g_completions s
  /\ g_attributes s' = g_attributes s.
Proof.
  induction ps as [|p ps IH]; intros s; cbn [fold_left map].
  - now rewrite app_nil_r.
  - destruct (IH (add_prompt "user" p s)) as (H1 & H2 & H3).
    cbv zeta in *. rewrite H1, H2, H3. cbn [add_prompt g_prompts
      g_completions g_attributes]. now rewrite <- app_assoc.
Qed.

Lemma add_completions_fields ts : forall s,
  let s' :=
    fold_left (fun s text => add_completion "assistant" text "stop" s) ts s in
  g_completions s'
  = g_completions s ++ map (fun t => ("assistant", t, "stop")) ts
  /\ g_prompts s' = g_prompts s
  /\ g_attributes s' = g_attributes s.
Proof.
  induction ts as [|t ts IH]; intros s; cbn [fold_left map].
  - now rewrite app_nil_r.
  - destruct (IH (add_completion "assistant" t "stop" s)) as (H1 & H2 & H3).
    cbv zeta in *. rewrite H1, H2, H3. cbn [add_completion g_prompts
      g_completions g_attributes]. now rewrite <- app_assoc.
Qed.

Lemma extract_usage_readable response span :
  usage_readable response ->
  exists i o t, extract_usage response span = Return (set_tokens i o t span)
  \/ extract_usage response span = Return span.
Proof.
  intros Hr. unfold extract_usage.
  destruct (llm_output response) as [out|] eqn:E.
  - destruct (bool_decide (out = ∅)) eqn:Hb.
    + exists None, None, None. now right.
    + apply bool_decide_eq_false in Hb.
      destruct (Hr out E Hb) as [d ->].
      eexists _, _, _. left. reflexivity.
  - exists None, None, None. now right.
Qed.

(** X1: a run that was started and then ends with a readable response
    is sent exactly once: the span carries the prompts of the start as
    user messages and the texts of the first generation list as
    assistant completions, its duration is the time between the two
    callbacks, and the entry leaves the table. *)
Theorem started_run_is_sent_on_end
    (serialized : Serialized) (prompts : list string) (rid now_text : string)
    (t0 t1 : Z) (cb : FlowtraceCallback) (response : LLMResult)
    (texts : list string) (rest : list (list string)) :
  generations response = texts :: rest ->
  usage_readable response ->
  let started := on_llm_start serialized prompts (Some rid) now_text t0 cb in
  exists span,
    on_llm_end response (Some rid) t1 started
    = ({| active_spans := delete rid (active_spans cb);
          sent := sent cb ++ [(span, (t1 - t0)%Z)] |}, Return tt)
    /\ g_prompts span = map (fun p => ("user", p)) prompts
    /\ g_completions span = map (fun t => ("assistant", t, "stop")) texts.
Proof.
  intros Hgen Hread. cbv zeta. unfold on_llm_end, on_llm_start.
  cbn [default active_spans sent]. rewrite lookup_insert_eq, Hgen.
  rewrite delete_insert_eq.
  match goal with
  | |- context [extract_usage response ?s] =>
      destruct (extract_usage_readable response s Hread)
        as (i & o & t & [H|H]); rewrite H
  end.
  - eexists. split; [reflexivity|]. cbn [set_tokens g_prompts g_completions].
    match goal with
    | |- context [fold_left _ texts ?s0] =>
        destruct (add_completions_fields texts s0) as (Hc & Hp & _)
    end.
    cbv zeta in Hc, Hp. rewrite Hc, Hp.
    match goal with
    | |- context [fold_left _ prompts ?s0] =>
        destruct (add_prompts_fields prompts s0) as (Hp' & Hc' & _)
    end.
    cbv zeta in Hp', Hc'. rewrite Hp', Hc'. split; reflexivity.
  - eexists. split; [reflexivity|].
    match goal with
    | |- context [fold_left _ texts ?s0] =>
        destruct (add_completions_fields texts s0) as (Hc & Hp & _)
    end.
    cbv zeta in Hc, Hp. rewrite Hc, Hp.
    match goal with
    | |- context [fold_left _ prompts ?s0] =>
        destruct (add_prompts_fields prompts s0) as (Hp' & Hc' & _)
    end.
    cbv zeta in Hp', Hc'. rewrite Hp', Hc'. split; reflexivity.
Qed.

End CallbackRoundTrip.

Section CallbackEdges.
Import Callback.

(** X2: the defaults of the two handlers do not meet.  A run started
    without a run id is stored under the text of the clock reading; an
    end or error callback without a run id looks under the empty string.
    Such a callback is therefore a no-op and the started span stays in
    the table, unsent. *)
Theorem run_without_id_is_never_closed
    (serialized : Serialized) (prompts : list string) (now_text : string)
    (t0 t1 : Z) (cb : FlowtraceCallback) (response : LLMResult)
    (error : Exception) :
  now_text <> "" ->
  active_spans cb !! "" = None ->
  let started := on_llm_start serialized prompts None now_text t0 cb in
  is_Some (active_spans started !! now_text)
  /\ on_llm_end response None t1 started = (started, Return tt)
  /\ on_llm_error error None t1 started = (started, Return tt).
Proof.
  intros Hne Hfree. cbv zeta.
  assert (Habsent :
    active_spans (on_llm_start serialized prompts None now_text t0 cb)
      !! default "" None = None).
  { unfold on_llm_start. cbn [default active_spans].
    rewrite lookup_insert_ne by assumption. exact Hfree. }
  split; [|split].
  - unfold on_llm_start. cbn [default active_spans].
    rewrite lookup_insert_eq. eauto.
  - now apply on_llm_end_absent.
  - now apply on_llm_error_absent.
Qed.

(** X3: an end callback whose response has no generation list removes
    the entry, raises [IndexError] and sends nothing; the span is lost,
    for a later end callback with a proper response finds no entry. *)
Theorem end_without_generations_loses_span
    (rid : string) (span : GenAISpan) (t0 t1 t2 : Z)
    (cb : FlowtraceCallback) (response later : LLMResult) :
  active_spans cb !! rid = Some (span, t0) ->
  generations response = [] ->
  let r := on_llm_end response (Some rid) t1 cb in
  snd r = Raise index_error
  /\ sent (fst r) = sent cb
  /\ active_spans (fst r) = delete rid (active_spans cb)
  /\ on_llm_end later (Some rid) t2 (fst r) = (fst r, Return tt).
Proof.
  intros Hin Hgen. cbv zeta.
  assert (Hr : on_llm_end response (Some rid) t1 cb
               = ({| active_spans := delete rid (active_spans cb);
                     sent := sent cb |}, Raise index_error)).
  { unfold on_llm_end. cbn [from_option id]. now rewrite Hin, Hgen. }
  rewrite Hr. cbn [fst snd active_spans sent].
  repeat split. apply on_llm_end_absent. cbn [from_option id active_spans].
  apply lookup_delete_eq.
Qed.

(** X4: an error callback for a started run sends its span once, with
    the error's type name and message as attributes, the prompts of the
    start, and the time between the two callbacks as duration. *)
Theorem started_run_is_sent_on_error
    (serialized : Serialized) (prompts : list string) (rid now_text : string)
    (t0 t1 : Z) (cb : FlowtraceCallback) (error : Exception) :
  let started := on_llm_start serialized prompts (Some rid) now_text t0 cb in
  exists span,
    on_llm_error error (Some rid) t1 started
    = ({| active_spans := delete rid (active_spans cb);
          sent := sent cb ++ [(span, (t1 - t0)%Z)] |}, Return tt)
    /\ g_attributes span !! "error.type" = Some (exc_type error)
    /\ g_attributes span !! "error.message" = Some (exc_message error)
    /\ g_prompts span = map (fun p => ("user", p)) prompts
    /\ g_completions span = [].
Proof.
  cbv zeta. unfold on_llm_error, on_llm_start.
  cbn [default active_spans sent]. rewrite lookup_insert_eq.
  rewrite delete_insert_eq.
  eexists. split; [reflexivity|].
  cbn [add_attribute g_attributes g_prompts g_completions].
  match goal with
  | |- context [fold_left _ prompts ?s0] =>
      destruct (add_prompts_fields prompts s0) as (Hp & Hc & Ha)
  end.
  cbv zeta in Hp, Hc, Ha. rewrite Hp, Hc.
  split; [|split; [|split]]; try reflexivity.
  - rewrite lookup_insert_ne by discriminate. apply lookup_insert_eq.
  - apply lookup_insert_eq.
Qed.

(** The spans sent and the spans waiting, after one callback. *)
Lemma deliver_budget cb c :
  (length (sent (deliver cb c)) + size (active_spans (deliver cb c))
   <= length (sent cb) + size (active_spans cb)
      + (if is_start c then 1 else 0))%nat.
Proof.
  destruct c as [sz ps rid nt now|resp rid now|err rid now];
    cbn [deliver is_start].
  - unfold on_llm_start. cbn [sent active_spans].
    rewrite map_size_insert.
    destruct (active_spans cb !! default nt rid); cbn [id]; lia.
  - unfold on_llm_end.
    destruct (active_spans cb !! default "" rid) as [[span t0]|] eqn:E;
      [|cbn [fst]; lia].
    assert (Hsz : size (delete (default "" rid) (active_spans cb))
                  = pred (size (active_spans cb))).
    { apply map_size_delete_Some. eauto. }
    assert (Hpos : size (active_spans cb) <> 0%nat).
    { eapply map_size_ne_0_lookup_2. eauto. }
    destruct (generations resp) as [|g gs]; [cbn [fst sent active_spans]; lia|].
    destruct (extract_usage resp _); cbn [fst send_span sent active_spans];
      rewrite ?length_app; cbn [length]; lia.
  - unfold on_llm_error.
    destruct (active_spans cb !! default "" rid) as [[span t0]|] eqn:E;
      [|cbn [fst]; lia].
    assert (Hsz : size (delete (default "" rid) (active_spans cb))
                  = pred (size (active_spans cb))).
    { apply map_size_delete_Some. eauto. }
    assert (Hpos : size (active_spans cb) <> 0%nat).
    { eapply map_size_ne_0_lookup_2. eauto. }
    cbn [fst send_span sent active_spans]. rewrite length_app.
    cbn [length]. lia.
Qed.

(** X5: whatever callbacks a fresh handler receives, in whatever order,
    the spans it has sent plus the spans still waiting in its table
    never outnumber the start callbacks it has seen: no span is sent
    that was not started, and none is sent twice. *)
Theorem sent_spans_never_exceed_starts (cs : list Callback) :
  (length (sent (run Callback.new cs))
   + size (active_spans (run Callback.new cs)) <= starts cs)%nat.
Proof.
  assert (Hgen : forall cs cb,
    (length (sent (run cb cs)) + size (active_spans (run cb cs))
     <= length (sent cb) + size (active_spans cb) + starts cs)%nat).
  { clear cs. induction cs as [|c cs IH]; intros cb.
    - unfold run, starts. cbn. lia.
    - change (run cb (c :: cs)) with (run (deliver cb c) cs).
      specialize (IH (deliver cb c)).
      pose proof (deliver_budget cb c) as Hc.
      unfold starts in *. cbn [filter]. rewrite filter_cons.
      destruct (is_start c) eqn:Es.
      + rewrite decide_True by reflexivity. cbn [length]. lia.
      + rewrite decide_False by discriminate. lia. }
  specialize (Hgen cs Callback.new).
  unfold Callback.new in Hgen at 3 4. cbn [sent active_spans length] in Hgen.
  rewrite map_size_empty in Hgen. exact Hgen.
Qed.

End CallbackEdges.

Lemma started_run_is_sent_on_end_witness :
  Callback.generations Sample.result = ["Hi."] :: []
  /\ exists span,
       Callback.on_llm_end Sample.result (Some "run-1") 1700000001000000
         Sample.started
       = ({| Callback.active_spans :=
               delete "run-1" (Callback.active_spans Callback.new);
             Callback.sent :=
               Callback.sent Callback.new ++ [(span, 1000000%Z)] |},
          Return tt)
       /\ Callback.g_prompts span = [("user", "Hello!")]
       /\ Callback.g_completions span = [("assistant", "Hi.", "stop")].
Proof.
  split; [reflexivity|].
  apply (started_run_is_sent_on_end
           {| Callback.s_name := Some "gpt-4o-mini";
              Callback.s_kwargs := None |}
           ["Hello!"] "run-1" "1700000000.0" 1700000000000000
           1700000001000000 Callback.new Sample.result ["Hi."] []
           eq_refl).
  intros out Hout. discriminate Hout.
Defined.

Lemma run_without_id_is_never_closed_witness :
  "1700000000.0" <> ""
  /\ Callback.on_llm_end Sample.result None 1700000001000000
       (Callback.on_llm_start
          {| Callback.s_name := None; Callback.s_kwargs := None |}
          ["Hello!"] None "1700000000.0" 1700000000000000 Callback.new)
     = (Callback.on_llm_start
          {| Callback.s_name := None; Callback.s_kwargs := None |}
          ["Hello!"] None "1700000000.0" 1700000000000000 Callback.new,
        Return tt).
Proof.
  split; [discriminate|].
  refine (proj1 (proj2
    (run_without_id_is_never_closed
       {| Callback.s_name := None; Callback.s_kwargs := None |}
       ["Hello!"] "1700000000.0" 1700000000000000 1700000001000000
       Callback.new Sample.result Sample.failure _ _))).
  - discriminate.
  - reflexivity.
Defined.

Lemma end_without_generations_loses_span_witness :
  Callback.generations
    {| Callback.generations := []; Callback.llm_output := None |} = []
  /\ snd (Callback.on_llm_end
            {| Callback.generations := []; Callback.llm_output := None |}
            (Some "run-1") 1700000001000000 Sample.started)
     = Raise Callback.index_error.
Proof.
  split; [reflexivity|].
  destruct (Callback.active_spans Sample.started !! "run-1")
    as [[span t0]|] eqn:E; [|discriminate E].
  exact (proj1
    (end_without_generations_loses_span "run-1" span t0 1700000001000000
       1700000002000000 Sample.started
       {| Callback.generations := []; Callback.llm_output := None |}
       Sample.result E eq_refl)).
Defined.

(** ** The SDK facade: shutdown, repeated and failed initialization *)

Section SdkLifecycle.
Import Sdk.

Variable environ : gmap string string.
Variable py_int : string -> option Z.
Variable py_float : string -> option float.

Lemma log_frame lvl msg st :
  _config (log lvl msg st) = _config st
  /\ _client (log lvl msg st) = _client st
  /\ _batching_client (log lvl msg st) = _batching_client st
  /\ _initialized (log lvl msg st) = _initialized st.
Proof. repeat split. Qed.

Lemma close_logged_frame what closed st :
  _config (close_logged what closed st) = _config st
  /\ _client (close_logged what closed st) = _client st
  /\ _batching_client (close_logged what closed st) = _batching_client st
  /\ _initialized (close_logged what closed st) = _initialized st.
Proof.
  unfold close_logged. destruct closed; [destruct (debug_on st)|];
    repeat split.
Qed.

Lemma shutdown_globals cb cc st :
  _initialized st = true ->
  _config (shutdown cb cc st) = _config st
  /\ _client (shutdown cb cc st) = None
  /\ _batching_client (shutdown cb cc st) = None
  /\ _initialized (shutdown cb cc st) = false.
Proof.
  intros Hinit. unfold shutdown. rewrite Hinit. cbn [negb].
  set (st1 := if debug_on st then log INFO _ st else st).
  assert (H1 : _config st1 = _config st /\ _client st1 = _client st
               /\ _batching_client st1 = _batching_client st).
  { subst st1. destruct (debug_on st); repeat split. }
  destruct H1 as (Hc1 & Hl1 & Hb1).
  set (st2 := match _batching_client st1 with
              | Some _ => set_batching_client None _
              | None => st1 end).
  assert (H2 : _config st2 = _config st /\ _client st2 = _client st
               /\ _batching_client st2 = None).
  { subst st2. destruct (_batching_client st1) eqn:E.
    - destruct (close_logged_frame "batching client" cb st1)
        as (Ha & Hb & _ & _).
      cbn [set_batching_client _config _client _batching_client].
      rewrite Ha, Hb, Hc1, Hl1. repeat split.
    - rewrite Hc1, Hl1. repeat split. exact E. }
  destruct H2 as (Hc2 & Hl2 & Hb2).
  set (st3 := match _client st2 with Some _ => _ | None => st2 end).
  assert (H3 : _config st3 = _config st /\ _client st3 = None
               /\ _batching_client st3 = None).
  { subst st3. destruct (_client st2) eqn:E.
    - destruct (close_logged_frame "client" cc st2) as (Ha & _ & Hb & _).
      cbn [_config _client _batching_client].
      rewrite Ha, Hb, Hc2, Hb2. repeat split.
    - rewrite Hc2, Hb2. repeat split. exact E. }
  destruct H3 as (Hc3 & Hl3 & Hb3).
  match goal with
  | |- context [if debug_on ?s then _ else _] => destruct (debug_on s)
  end; cbn [log _config _client _batching_client _initialized];
    rewrite ?Hc3, ?Hl3, ?Hb3; repeat split.
Qed.

Lemma shutdown_uninitialized cb cc st :
  _initialized st = false -> shutdown cb cc st = st.
Proof. intros H. unfold shutdown. now rewrite H. Qed.

Lemma shutdown_not_initialized cb cc st :
  _initialized (shutdown cb cc st) = false.
Proof.
  destruct (_initialized st) eqn:E.
  - now apply shutdown_globals.
  - now rewrite shutdown_uninitialized.
Qed.

(** X6: [shutdown] can be called any number of times: it always leaves
    the SDK uninitialized, a second call changes nothing (not even the
    log), and this holds whether or not closing the clients raised.  On
    an initialized SDK it drops both clients and keeps the
    configuration. *)
Theorem shutdown_is_idempotent
    (cb cc cb' cc' : option Exception) (st : State) :
  let st1 := shutdown cb cc st in
  shutdown cb' cc' st1 = st1
  /\ _initialized st1 = false
  /\ _config st1 = _config st
  /\ (if _initialized st
      then _client st1 = None /\ _batching_client st1 = None
      else st1 = st).
Proof.
  cbv zeta. split; [|split; [|split]].
  - apply shutdown_uninitialized, shutdown_not_initialized.
  - apply shutdown_not_initialized.
  - destruct (_initialized st) eqn:E.
    + now apply shutdown_globals.
    + now rewrite shutdown_uninitialized.
  - destruct (_initialized st) eqn:E.
    + destruct (shutdown_globals cb cc st E) as (_ & H1 & H2 & _).
      now split.
    + now apply shutdown_uninitialized.
Qed.

(** X7: after [shutdown] the diagnostics still report the [enabled] and
    [debug] flags of the old configuration, with [initialized] false and
    no queue statistics; after [reset] the configuration is forgotten
    and all three flags read false. *)
Theorem stats_after_shutdown_and_reset
    (cb cc : option Exception) (st : State) (c : SDKConfig) :
  _initialized st = true ->
  _config st = Some c ->
  get_stats (shutdown cb cc st)
  = <["debug" := SBool (debug c)]>
      (<["enabled" := SBool (enabled c)]>
         (<["initialized" := SBool false]> ∅))
  /\ get_stats (reset cb cc st)
     = <["debug" := SBool false]>
         (<["enabled" := SBool false]>
            (<["initialized" := SBool false]> ∅)).
Proof.
  intros Hinit Hcfg.
  destruct (shutdown_globals cb cc st Hinit) as (Hc & _ & Hb & Hi).
  split.
  - unfold get_stats. now rewrite Hc, Hb, Hi, Hcfg.
  - reflexivity.
Qed.

(** X8: the first successful [init] wins.  A later [init], whatever its
    arguments, returns the configuration of the first and changes none
    of the module globals; it only makes a debug log call. *)
Theorem first_init_wins (a1 a2 : InitArgs) (st : State)
    (c : option SDKConfig) :
  _initialized st = false ->
  snd (init environ py_int py_float a1 st) = Return c ->
  let st1 := fst (init environ py_int py_float a1 st) in
  let r := init environ py_int py_float a2 st1 in
  c = Some (build_config environ py_int py_float a1)
  /\ snd r = Return c
  /\ _config (fst r) = _config st1
  /\ _client (fst r) = _client st1
  /\ _batching_client (fst r) = _batching_client st1
  /\ _initialized (fst r) = true.
Proof.
  intros Hinit Hret. cbv zeta.
  assert (H1 : c = Some (build_config environ py_int py_float a1)
               /\ _initialized (fst (init environ py_int py_float a1 st))
                  = true
               /\ _config (fst (init environ py_int py_float a1 st)) = c).
  { revert Hret. unfold init. rewrite Hinit.
    destruct (strict _ && str_falsy _); cbn [fst snd]; [discriminate|].
    intros Hret. inversion Hret; subst c. split; [reflexivity|].
    unfold finish_init.
    repeat match goal with
           | |- context [if ?b then _ else _] => destruct b
           end; cbn; repeat split. }
  destruct H1 as (Hc & Hi & Hcfg).
  split; [exact Hc|].
  remember (fst (init environ py_int py_float a1 st)) as st1 eqn:Est1.
  clear Est1 Hret. unfold init. rewrite Hi. cbn [fst snd log _config
    _client _batching_client _initialized].
  rewrite Hcfg. repeat split. exact Hi.
Qed.


End SdkLifecycle.

Section BaseUrl.
Import Sdk.

Lemma last_char_rev_app s : forall acc,
  last_char (String.rev_app s acc)
  = match last_char acc with
    | Some c => Some c
    | None => match s with String c _ => Some c | EmptyString => None end
    end.
Proof.
  induction s as [|a s IH]; intros acc; cbn [String.rev_app].
  - now destruct (last_char acc).
  - rewrite IH. cbn [last_char]. destruct (last_char acc); [reflexivity|].
    now destruct s.
Qed.

Lemma lstrip_slash_head s :
  match Str.lstrip_slash s with
  | String c _ => c <> "/"%char
  | EmptyString => True
  end.
Proof.
  induction s as [|a s IH]; [exact I|].
  cbn [Str.lstrip_slash].
  destruct (Ascii.eqb a "/"%char) eqn:E.
  - apply Ascii.eqb_eq in E. subst a. exact IH.
  - apply Ascii.eqb_neq in E.
    destruct a as [[] [] [] [] [] [] [] []]; try exact E.
    exact IH.
Qed.

Lemma rstrip_slash_last s : last_char (Str.rstrip_slash s) <> Some "/"%char.
Proof.
  unfold Str.rstrip_slash, String.rev. rewrite last_char_rev_app.
  cbn [last_char]. pose proof (lstrip_slash_head (String.rev_app s "")) as H.
  destruct (Str.lstrip_slash (String.rev_app s "")); [discriminate|].
  intros Heq. inversion Heq. contradiction.
Qed.

Lemma drop_last c r :
  Str.drop (String.length (String c r) - 1) (String c r)
  = match r with
    | EmptyString => String c EmptyString
    | String _ _ => Str.drop (String.length r - 1) r
    end.
Proof.
  destruct r as [|d r]; [reflexivity|].
  cbn [String.length]. replace (S (S (String.length r)) - 1)%nat
    with (S (String.length r)) by lia.
  cbn [Str.drop]. replace (S (String.length r) - 1)%nat
    with (String.length r) by lia.
  reflexivity.
Qed.

Lemma endswith_slash_last s :
  Str.endswith s "/" = true -> last_char s = Some "/"%char.
Proof.
  unfold Str.endswith. cbn [String.length].
  induction s as [|c r IH]; [discriminate|].
  intros H. apply andb_prop in H as [_ H]. rewrite drop_last in H.
  cbn [last_char]. destruct r as [|d r'].
  - apply String.eqb_eq in H. now inversion H.
  - rewrite IH; [reflexivity|]. rewrite H. reflexivity.
Qed.

(** X10: whatever the [base_url] argument and the environment hold, the
    configured base URL never ends with a slash, so that appending
    ["/health"] or another path never doubles it; the HTTP client
    created by [init] is given that same URL. *)
Theorem base_url_has_no_trailing_slash
    (environ : gmap string string) (py_int : string -> option Z)
    (py_float : string -> option float) (a : InitArgs) (st : State) :
  let c := build_config environ py_int py_float a in
  Str.endswith (base_url c) "/" = false
  /\ (if enabled c
      then Batching.c_url <$> _client (finish_init c st) = Some (base_url c)
      else _client (finish_init c st) = _client st).
Proof.
  cbv zeta. split.
  - destruct (Str.endswith _ "/") eqn:E; [|reflexivity].
    apply endswith_slash_last in E. cbn [base_url build_config] in E.
    now apply rstrip_slash_last in E.
  - unfold finish_init.
    destruct (enabled (build_config environ py_int py_float a)) eqn:En;
      repeat match goal with
             | |- context [if ?b then _ else _] => destruct b
             end; reflexivity.
Qed.

End BaseUrl.

(** ** Ending spans: what is delivered and what is dropped *)

Section EndingSpans.
Import Decorators.

Variable py_int16 : string -> Outcome Z.

Lemma end_open now s st :
  _ended s = false ->
  end_ py_int16 now s st = (closed_at now s, _send py_int16 (closed_at now s) st).
Proof. intros H. unfold end_. now rewrite H. Qed.

Lemma _send_uninitialized s st :
  Sdk._initialized st = false -> _send py_int16 s st = st.
Proof. intros H. unfold _send, Sdk.is_initialized. now rewrite H. Qed.


(** X11: a span ended while the SDK is not initialized (before [init],
    or after [shutdown]) is dropped without a trace: the SDK state,
    log included, is untouched.  The span is nevertheless marked ended,
    so it is lost for good: ending it again after a later [init]
    delivers nothing. *)
Theorem span_ended_without_sdk_is_lost
    (environ : gmap string string) (py_int : string -> option Z)
    (py_float : string -> option float) (a : Sdk.InitArgs)
    (s : ActiveSpan) (st : Sdk.State) (t1 t2 : Z) :
  Sdk._initialized st = false ->
  _ended s = false ->
  let r1 := end_ py_int16 t1 s st in
  let st2 := fst (Sdk.init environ py_int py_float a (snd r1)) in
  snd r1 = st
  /\ _ended (fst r1) = true
  /\ end_ py_int16 t2 (fst r1) st2 = (fst r1, st2).
Proof.
  intros Hinit Hopen. cbv zeta. rewrite end_open by assumption.
  cbn [fst snd]. rewrite _send_uninitialized by assumption.
  repeat split.
Qed.




End EndingSpans.

(** ** Serialization bound *)

Section SerializationBound.
Import Decorators.

Lemma string_length_app (s1 s2 : string) :
  String.length (s1 +:+ s2) = (String.length s1 + String.length s2)%nat.
Proof. induction s1 as [|c s1 IH]; simpl; [reflexivity | now rewrite IH]. Qed.

Lemma json_escape_char_length c :
  (String.length (json_escape_char c) <= 6)%nat.
Proof.
  unfold json_escape_char.
  repeat match goal with
         | |- context [if ?b then _ else _] => destruct b
         end;
    rewrite ?string_length_app, ?hex_fixed_length; simpl; lia.
Qed.

Lemma json_escape_length s :
  (String.length (json_escape s) <= 6 * String.length s)%nat.
Proof.
  induction s as [|c r IH]; [simpl; lia|].
  cbn [json_escape]. rewrite string_length_app.
  pose proof (json_escape_char_length c). cbn [String.length]. lia.
Qed.


Lemma json_string_length s :
  (String.length (json_string s) <= 6 * String.length s + 2)%nat.
Proof.
  unfold json_string. cbn [String.length]. rewrite string_length_app.
  pose proof (json_escape_length s). cbn [String.length]. lia.
Qed.




End SerializationBound.

(** ** Creating spans *)

Section CreatingSpans.
Import Decorators.

Lemma _generate_id_truthy r : Str.truthy (_generate_id r) = true.
Proof.
  pose proof (proj1 (_generate_id_shape r)) as H.
  destruct (_generate_id r); [discriminate H|reflexivity].
Qed.

Lemma str_or_generated (given : option string) r :
  Str.truthy (default "" (Sdk.str_or given (Some (_generate_id r)))) = true
  /\ (forall s, given = Some s -> Str.truthy s = true ->
        default "" (Sdk.str_or given (Some (_generate_id r))) = s).
Proof.
  unfold Sdk.str_or. split.
  - destruct given as [s|]; [|apply _generate_id_truthy].
    destruct (Str.truthy s) eqn:E; cbn [from_option id];
      [exact E|apply _generate_id_truthy].
  - intros s -> Hs. now rewrite Hs.
Qed.

Lemma trace_ids parent r_span r_trace now name0 kind0 input metadata :
  let child := trace parent r_span r_trace now name0 kind0 input metadata in
  span_id child = _generate_id r_span
  /\ parent_id child = span_id <$> parent
  /\ trace_id child
     = default "" (Sdk.str_or (trace_id <$> parent)
                     (Some (_generate_id r_trace)))
  /\ _ended child = false.
Proof.
  cbv zeta. unfold trace.
  destruct (negb (is_none input)), metadata as [m|];
    try destruct (bool_decide (m = ∅)); repeat split.
Qed.

(** X16: a span created by [trace] (or [start_span]) under a current
    span joins it: its [parent_id] is the current span's [span_id] and
    its [trace_id] the current span's [trace_id]; its own [span_id] is
    freshly generated and its [trace_id] is again non-empty, so the link
    carries on to its own children.  Without a current span it is a
    root: no parent and a freshly generated trace id. *)
Theorem trace_joins_current_span
    (p : ActiveSpan) (r_span r_trace now : Z) (name0 kind0 : string)
    (input : value) (metadata : option (gmap string value)) :
  Str.truthy (trace_id p) = true ->
  let child := trace (Some p) r_span r_trace now name0 kind0 input metadata in
  let root := start_span None r_span r_trace now name0 kind0 input metadata in
  (trace_id child = trace_id p
   /\ parent_id child = Some (span_id p)
   /\ span_id child = _generate_id r_span
   /\ Str.truthy (trace_id child) = true
   /\ _ended child = false)
  /\ (parent_id root = None
      /\ trace_id root = _generate_id r_trace
      /\ span_id root = _generate_id r_span).
Proof.
  intros Hp. cbv zeta. unfold start_span.
  destruct (trace_ids (Some p) r_span r_trace now name0 kind0 input metadata)
    as (H1 & H2 & H3 & H4).
  destruct (trace_ids None r_span r_trace now name0 kind0 input metadata)
    as (G1 & G2 & G3 & _).
  cbv zeta in *. cbn [fmap option_fmap option_map] in *.
  assert (Ht : trace_id (trace (Some p) r_span r_trace now name0 kind0 input
                           metadata) = trace_id p).
  { rewrite H3. unfold Sdk.str_or. now rewrite Hp. }
  split.
  - split; [exact Ht|]. split; [exact H2|]. split; [exact H1|].
    split; [now rewrite Ht|exact H4].
  - split; [exact G2|]. split; [exact G3|exact G1].
Qed.

(** Every span built by the constructor has non-empty ids, whatever the
    optional arguments were. *)
Lemma constructed_span_has_ids r_span r_trace now name0 kind0 sid pid tid :
  let s := __init__ r_span r_trace now name0 kind0 sid pid tid in
  Str.truthy (span_id s) = true /\ Str.truthy (trace_id s) = true.
Proof. cbv zeta. split; apply str_or_generated. Qed.

End CreatingSpans.

(** ** The [traceable] wrapper *)

Section Wrapper.
Import Decorators.

Variable py_int16 : string -> Outcome Z.
Variable fn : ActiveSpan -> Sdk.State -> ActiveSpan * Sdk.State * Outcome value.

Lemma end_marks_ended now s st : _ended (fst (end_ py_int16 now s st)) = true.
Proof. unfold end_. destruct (_ended s) eqn:E; [exact E|reflexivity]. Qed.

Lemma end_keeps_data now s st :
  error (fst (end_ py_int16 now s st)) = error s
  /\ output_data (fst (end_ py_int16 now s st)) = output_data s
  /\ input_data (fst (end_ py_int16 now s st)) = input_data s.
Proof. unfold end_. destruct (_ended s); repeat split. Qed.

(** X17: the wrapper of [traceable] is transparent and always closes
    its span.  It returns what the wrapped function returns and raises
    what it raises; the function runs with a span named as configured,
    linked to the current span, holding the captured arguments when
    input capture is on; and when the wrapper is left the span is ended,
    with the result as its output (when output capture is on) or the
    exception as its error. *)
Theorem traceable_wrapper_is_transparent
    (span_name kind0 : string) (capture_input capture_output : bool)
    (metadata : option (gmap string value)) (params : option (list string))
    (stack1 stack2 : string) (parent : option ActiveSpan)
    (r_span r_trace t0 t1 : Z) (args : list value)
    (kwargs : list (string * value)) (st : Sdk.State) :
  let r :=
    sync_wrapper py_int16 fn span_name kind0 capture_input capture_output
      metadata params stack1 stack2 parent r_span r_trace t0 t1 args kwargs
      st in
  exists span0,
    snd r = snd (fn span0 st)
    /\ name span0 = span_name
    /\ parent_id span0 = span_id <$> parent
    /\ _ended span0 = false
    /\ input_data span0
       = (if capture_input
          then match params with
               | Some ps => VDict (_capture_args ps args kwargs)
               | None => VNone
               end
          else VNone)
    /\ _ended (fst (fst r)) = true
    /\ match snd r with
       | Return result =>
           if capture_output then output_data (fst (fst r)) = result
           else output_data (fst (fst r)) = output_data (fst (fst (fn span0 st)))
       | Raise e => error (fst (fst r)) = Some e
       end.
Proof.
  cbv zeta. unfold sync_wrapper.
  match goal with
  | |- context [fn ?s0 st] => exists s0; set (span0 := s0)
  end.
  destruct (fn span0 st) as [[s1 st1] [result|e]] eqn:Efn.
  - unfold __exit__.
    destruct (end_ py_int16 t1 _ st1) as [s2 st2] eqn:Eend.
    cbn [fst snd].
    assert (Hs2 : s2 = fst (end_ py_int16 t1
                    (if capture_output then set_output result s1 else s1)
                    st1)) by now rewrite Eend.
    split; [reflexivity|].
    split; [subst span0; destruct metadata as [m|], capture_input, params;
            try destruct (bool_decide (m = ∅)); reflexivity|].
    split; [subst span0; destruct metadata as [m|], capture_input, params;
            try destruct (bool_decide (m = ∅)); reflexivity|].
    split; [subst span0; destruct metadata as [m|], capture_input, params;
            try destruct (bool_decide (m = ∅)); reflexivity|].
    split; [subst span0; destruct metadata as [m|], capture_input, params;
            try destruct (bool_decide (m = ∅)); reflexivity|].
    split; [rewrite Hs2; apply end_marks_ended|].
    rewrite Hs2.
    destruct (end_keeps_data t1
                (if capture_output then set_output result s1 else s1) st1)
      as (_ & Ho & _).
    rewrite Ho. now destruct capture_output.
  - unfold __exit__.
    destruct (end_ py_int16 t1 _ st1) as [s2 st2] eqn:Eend.
    cbn [fst snd].
    assert (Hs2 : s2 = fst (end_ py_int16 t1
                    (set_error stack2 e (set_error stack1 e s1)) st1))
      by now rewrite Eend.
    split; [reflexivity|].
    split; [subst span0; destruct metadata as [m|], capture_input, params;
            try destruct (bool_decide (m = ∅)); reflexivity|].
    split; [subst span0; destruct metadata as [m|], capture_input, params;
            try destruct (bool_decide (m = ∅)); reflexivity|].
    split; [subst span0; destruct metadata as [m|], capture_input, params;
            try destruct (bool_decide (m = ∅)); reflexivity|].
    split; [subst span0; destruct metadata as [m|], capture_input, params;
            try destruct (bool_decide (m = ∅)); reflexivity|].
    split; [rewrite Hs2; apply end_marks_ended|].
    rewrite Hs2.
    destruct (end_keeps_data t1
                (set_error stack2 e (set_error stack1 e s1)) st1)
      as (He & _ & _).
    rewrite He. reflexivity.
Qed.

End Wrapper.

(** ** Captured arguments *)

Section CapturedArguments.
Import Decorators.

Lemma dict_get_set_eq k v d : Callback.dict_get k (dict_set k v d) = Some v.
Proof.
  induction d as [|[k' v'] d IH]; cbn [dict_set Callback.dict_get].
  - now rewrite String.eqb_refl.
  - destruct (String.eqb k' k) eqn:E; cbn [Callback.dict_get]; now rewrite E.
Qed.

Lemma dict_get_set_ne k k' v d :
  k <> k' -> Callback.dict_get k' (dict_set k v d) = Callback.dict_get k' d.
Proof.
  intros Hne. induction d as [|[k0 v0] d IH]; cbn [dict_set Callback.dict_get].
  - destruct (String.eqb k k') eqn:E; [|reflexivity].
    apply String.eqb_eq in E. contradiction.
  - destruct (String.eqb k0 k) eqn:E; cbn [Callback.dict_get].
    + apply String.eqb_eq in E. subst k0.
      destruct (String.eqb k k') eqn:E'; [|reflexivity].
      apply String.eqb_eq in E'. contradiction.
    + now rewrite IH.
Qed.

Lemma dict_update_other k other : forall d,
  k ∉ map fst other ->
  Callback.dict_get k (dict_update other d) = Callback.dict_get k d.
Proof.
  induction other as [|[k1 v1] other IH]; intros d Hk; [reflexivity|].
  cbn [map fst] in Hk. apply not_elem_of_cons in Hk as [Hne Hk].
  unfold dict_update. cbn [fold_left fst snd].
  change (Callback.dict_get k (dict_update other (dict_set k1 v1 d))
          = Callback.dict_get k d).
  rewrite IH by assumption. apply dict_get_set_ne. congruence.
Qed.

Lemma dict_update_member other : forall d k v,
  NoDup (map fst other) -> (k, v) ∈ other ->
  Callback.dict_get k (dict_update other d) = Some v.
Proof.
  induction other as [|[k1 v1] other IH]; intros d k v Hnd Hin.
  - now apply elem_of_nil in Hin.
  - cbn [map fst] in Hnd. apply NoDup_cons in Hnd as [Hfresh Hnd].
    unfold dict_update. cbn [fold_left fst snd].
    change (Callback.dict_get k (dict_update other (dict_set k1 v1 d))
            = Some v).
    apply elem_of_cons in Hin as [Heq|Hin].
    + inversion Heq; subst k1 v1.
      rewrite dict_update_other by assumption. apply dict_get_set_eq.
    + now apply IH.
Qed.

Lemma positional_key_inj params i j :
  NoDup params ->
  (forall n : nat, "arg_" +:+ pretty n ∉ params) ->
  positional_key params i = positional_key params j -> i = j.
Proof.
  intros Hnd Hfree. unfold positional_key.
  destruct (params !! i) as [p|] eqn:Ei, (params !! j) as [q|] eqn:Ej;
    intros Heq.
  - subst q. eapply NoDup_lookup; eauto.
  - subst p. exfalso. apply (Hfree j). eapply list_elem_of_lookup_2; eauto.
  - subst q. exfalso. apply (Hfree i). eapply list_elem_of_lookup_2; eauto.
  - apply (inj (String.append "arg_")) in Heq. now apply (inj pretty) in Heq.
Qed.

Lemma capture_positional_other params k : forall args i res,
  (forall j, (j < length args)%nat -> positional_key params (i + j) <> k) ->
  Callback.dict_get k (capture_positional params i args res)
  = Callback.dict_get k res.
Proof.
  induction args as [|x args IH]; intros i res Hk; [reflexivity|].
  cbn [capture_positional]. fold (positional_key params i).
  rewrite IH.
  - apply dict_get_set_ne. specialize (Hk 0%nat). rewrite Nat.add_0_r in Hk.
    apply Hk. cbn [length]. lia.
  - intros j Hj. replace (S i + j)%nat with (i + S j)%nat by lia.
    apply Hk. cbn [length]. lia.
Qed.

Lemma capture_positional_member params :
  NoDup params ->
  (forall n : nat, "arg_" +:+ pretty n ∉ params) ->
  forall args i res j x,
    args !! j = Some x ->
    Callback.dict_get (positional_key params (i + j))
      (capture_positional params i args res) = Some x.
Proof.
  intros Hnd Hfree. induction args as [|a args IH]; intros i res j x Hj.
  - discriminate Hj.
  - cbn [capture_positional]. fold (positional_key params i).
    destruct j as [|j].
    + inversion Hj; subst a. rewrite Nat.add_0_r.
      rewrite capture_positional_other; [apply dict_get_set_eq|].
      intros j _ Heq. apply positional_key_inj in Heq; [lia|assumption..].
    + replace (i + S j)%nat with (S i + j)%nat by lia. now apply IH.
Qed.

(** X18: the dict [_capture_args] builds for a call.  When the parameter
    names are distinct and none of them has the form [arg_N], every
    keyword argument is found under its name, and every positional
    argument is found under the name of its parameter (or under
    [arg_] followed by its index when the parameters are exhausted)
    unless a keyword argument with that name overrides it. *)
Theorem capture_args_records_every_argument
    (params : list string) (args : list value)
    (kwargs : list (string * value)) :
  NoDup params ->
  (forall n : nat, "arg_" +:+ pretty n ∉ params) ->
  NoDup (map fst kwargs) ->
  (forall k v, (k, v) ∈ kwargs ->
     Callback.dict_get k (_capture_args params args kwargs) = Some v)
  /\ (forall i x, args !! i = Some x ->
        positional_key params i ∉ map fst kwargs ->
        Callback.dict_get (positional_key params i)
          (_capture_args params args kwargs) = Some x).
Proof.
  intros Hnd Hfree Hkw. unfold _capture_args. split.
  - intros k v Hin. now apply dict_update_member.
  - intros i x Hi Hk. rewrite dict_update_other by assumption.
    now apply (capture_positional_member params Hnd Hfree args 0%nat [] i x).
Qed.

End CapturedArguments.

(** ** A disabled SDK *)

Section DisabledSdk.
Import Decorators.

Variable py_int16 : string -> Outcome Z.
Variable environ : gmap string string.
Variable py_int : string -> option Z.
Variable py_float : string -> option float.

(** X19: [init(enabled=False)] wins over the environment: when it
    returns, the SDK counts as initialized but no client has been
    created, and ending a span while it is in force changes nothing in
    the SDK state (nothing is buffered, nothing is logged). *)
Theorem disabled_sdk_drops_spans
    (a : Sdk.InitArgs) (st : Sdk.State) (c : option Sdk.SDKConfig)
    (s : ActiveSpan) (now : Z) :
  Sdk._initialized st = false ->
  Sdk.i_enabled a = Some false ->
  snd (Sdk.init environ py_int py_float a st) = Return c ->
  _ended s = false ->
  let st1 := fst (Sdk.init environ py_int py_float a st) in
  Sdk._initialized st1 = true
  /\ Sdk._client st1 = Sdk._client st
  /\ Sdk._batching_client st1 = Sdk._batching_client st
  /\ snd (end_ py_int16 now s st1) = st1.
Proof.
  intros Hinit Hen Hret Hopen. cbv zeta.
  assert (Hoff : Sdk.enabled (Sdk.build_config environ py_int py_float a)
                 = false).
  { cbn [Sdk.build_config Sdk.enabled]. now rewrite Hen. }
  assert (Hst1 :
    Sdk._initialized (fst (Sdk.init environ py_int py_float a st)) = true
    /\ Sdk._client (fst (Sdk.init environ py_int py_float a st))
       = Sdk._client st
    /\ Sdk._batching_client (fst (Sdk.init environ py_int py_float a st))
       = Sdk._batching_client st
    /\ Sdk._config (fst (Sdk.init environ py_int py_float a st))
       = Some (Sdk.build_config environ py_int py_float a)).
  { revert Hret. unfold Sdk.init. rewrite Hinit.
    destruct (Sdk.strict _ && Sdk.str_falsy _); cbn [fst snd];
      [discriminate|]. intros _.
    unfold Sdk.finish_init. rewrite Hoff.
    repeat match goal with
           | |- context [if ?b then _ else _] => destruct b
           end; repeat split. }
  destruct Hst1 as (Hi & Hc & Hb & Hcfg).
  split; [exact Hi|]. split; [exact Hc|]. split; [exact Hb|].
  rewrite end_open by exact Hopen. cbn [snd].
  unfold _send, Sdk.is_initialized, Sdk.get_config.
  rewrite Hi, Hcfg. cbn [negb]. now rewrite Hoff.
Qed.

End DisabledSdk.

(** ** Scrub paths *)

Section ScrubPaths.
Import Privacy.

Variable sha256 : string -> string.

Lemma lower_char_idem c : Str.lower_char (Str.lower_char c) = Str.lower_char c.
Proof. destruct c as [[] [] [] [] [] [] [] []]; reflexivity. Qed.

Lemma lower_idem s : Str.lower (Str.lower s) = Str.lower s.
Proof.
  induction s as [|c r IH]; [reflexivity|].
  cbn [Str.lower]. now rewrite lower_char_idem, IH.
Qed.




(** X20: scrub paths are matched without regard to case, on both sides:
    changing the case of the key-path, or of the configured scrub
    paths, does not change whether the path is scrubbed. *)
Theorem scrub_paths_ignore_case (cfg : PrivacyConfig) (path : string) :
  _should_scrub_path cfg (Str.lower path) = _should_scrub_path cfg path
  /\ _should_scrub_path
       {| enabled := enabled cfg; redact_patterns := redact_patterns cfg;
          scrub_paths := map Str.lower (scrub_paths cfg);
          hash_pii := hash_pii cfg; hash_salt := hash_salt cfg;
          custom_redactor := custom_redactor cfg;
          redacted_text := redacted_text cfg |} path
     = _should_scrub_path cfg path.
Proof.
  unfold _should_scrub_path. cbn [scrub_paths]. split.
  - now rewrite lower_idem.
  - induction (scrub_paths cfg) as [|q qs IH]; [reflexivity|].
    cbn [map existsb]. now rewrite IH, lower_idem.
Qed.




End ScrubPaths.

(** ** Temporary privacy settings *)

Section PrivacyContext.
Import Privacy.

Variable re_compile : string -> option Pattern.

Lemma append_patterns_ok extra : forall patterns compiled,
  compile_all re_compile extra = Some compiled ->
  privacy_context.append_patterns re_compile extra patterns
  = (patterns ++ compiled, true).
Proof.
  induction extra as [|[src|p] rest IH]; intros patterns compiled H;
    cbn [compile_all privacy_context.append_patterns] in *.
  - inversion H. now rewrite app_nil_r.
  - destruct (re_compile src) as [p|]; [|discriminate].
    destruct (compile_all re_compile rest) as [l|] eqn:E; [|discriminate].
    inversion H. rewrite (IH _ l eq_refl). now rewrite <- app_assoc.
  - destruct (compile_all re_compile rest) as [l|] eqn:E; [|discriminate].
    inversion H. rewrite (IH _ l eq_refl). now rewrite <- app_assoc.
Qed.

Lemma append_patterns_fails before bad after : forall patterns compiled,
  compile_all re_compile before = Some compiled ->
  re_compile bad = None ->
  privacy_context.append_patterns re_compile (before ++ inl bad :: after)
    patterns
  = (patterns ++ compiled, false).
Proof.
  induction before as [|[src|p] rest IH]; intros patterns compiled H Hbad;
    cbn [compile_all privacy_context.append_patterns app] in *.
  - inversion H. now rewrite Hbad, app_nil_r.
  - destruct (re_compile src) as [p|]; [|discriminate].
    destruct (compile_all re_compile rest) as [l|] eqn:E; [|discriminate].
    inversion H. rewrite (IH _ l eq_refl Hbad). now rewrite <- app_assoc.
  - destruct (compile_all re_compile rest) as [l|] eqn:E; [|discriminate].
    inversion H. rewrite (IH _ l eq_refl Hbad). now rewrite <- app_assoc.
Qed.

(** X23: a [privacy_context] block is a round trip.  When all its extra
    patterns compile, the block sees the configured patterns followed by
    the extra ones and the configured scrub paths followed by the extra
    ones; leaving the block restores both lists, also when patterns or
    scrub paths were added inside the block, and leaves the other
    settings as the block left them. *)
Theorem privacy_context_restores_settings
    (patterns : option (list (string + Pattern)))
    (paths : option (list string)) (compiled : list Pattern)
    (cfg inside : PrivacyConfig) :
  compile_all re_compile (default [] patterns) = Some compiled ->
  let entered :=
    privacy_context.__enter__ re_compile
      (privacy_context.__init__ patterns paths) cfg in
  exists ctx,
    snd entered = Some ctx
    /\ redact_patterns (fst entered) = redact_patterns cfg ++ compiled
    /\ scrub_paths (fst entered) = scrub_paths cfg ++ default [] paths
    /\ privacy_context.__exit__ ctx (fst entered) = cfg
    /\ redact_patterns (privacy_context.__exit__ ctx inside)
       = redact_patterns cfg
    /\ scrub_paths (privacy_context.__exit__ ctx inside) = scrub_paths cfg
    /\ custom_redactor (privacy_context.__exit__ ctx inside)
       = custom_redactor inside.
Proof.
  intros Hc. cbv zeta. unfold privacy_context.__enter__,
    privacy_context.__init__.
  cbn [privacy_context.extra_patterns privacy_context.extra_paths].
  rewrite (append_patterns_ok _ _ _ Hc). cbn [fst snd].
  eexists. split; [reflexivity|]. cbn. repeat split. now destruct cfg.
Qed.

(** X24: [__enter__] installs the extra patterns one at a time.  When
    one of them does not compile, [__enter__] raises with the patterns
    before it already appended to the configuration, and since the block
    is never entered nothing removes them again; the scrub paths are
    not touched. *)
Theorem failing_privacy_context_leaves_patterns
    (before after : list (string + Pattern)) (bad : string)
    (paths : option (list string)) (compiled : list Pattern)
    (cfg : PrivacyConfig) :
  compile_all re_compile before = Some compiled ->
  re_compile bad = None ->
  let entered :=
    privacy_context.__enter__ re_compile
      (privacy_context.__init__ (Some (before ++ inl bad :: after)) paths)
      cfg in
  snd entered = None
  /\ redact_patterns (fst entered) = redact_patterns cfg ++ compiled
  /\ scrub_paths (fst entered) = scrub_paths cfg.
Proof.
  intros Hc Hbad. cbv zeta. unfold privacy_context.__enter__,
    privacy_context.__init__.
  cbn [privacy_context.extra_patterns privacy_context.extra_paths
       from_option id].
  rewrite (append_patterns_fails _ _ _ _ _ Hc Hbad). repeat split.
Qed.

End PrivacyContext.

(** ** Hashing and masks *)

Section HashAndMasks.
Import Privacy.

Variable sha256 : string -> string.

Lemma bytes_hex_length bs :
  String.length (bytes_hex bs) = (2 * String.length bs)%nat.
Proof.
  induction bs as [|c r IH]; [reflexivity|].
  cbn [bytes_hex]. rewrite string_length_app, hex_fixed_length, IH.
  cbn [String.length]. lia.
Qed.

Lemma all_chars_app p s1 s2 :
  Str.all_chars p (s1 +:+ s2)
  = Str.all_chars p s1 && Str.all_chars p s2.
Proof.
  induction s1 as [|c r IH]; [reflexivity|].
  change (p c && Str.all_chars p (r +:+ s2)
          = p c && Str.all_chars p r && Str.all_chars p s2).
  rewrite IH. now rewrite andb_assoc.
Qed.

Lemma bytes_hex_digits bs :
  Str.all_chars Str.is_hex_char (bytes_hex bs) = true.
Proof.
  induction bs as [|c r IH]; [reflexivity|].
  cbn [bytes_hex]. now rewrite all_chars_app, hex_fixed_digits, IH.
Qed.

(** X25: [hash_pii] and the hashing done during redaction agree: without
    a salt argument, or with an empty one, [hash_pii] uses the
    configured salt and returns what [_hash_value] returns.  With a
    digest of at least four bytes, the result is the text [[HASH:]
    followed by eight hexadecimal digits and a closing bracket. *)
Theorem hash_pii_uses_configured_salt (cfg : PrivacyConfig) (v salt : string) :
  (forall x, (4 <= String.length (sha256 x))%nat) ->
  hash_pii_value sha256 cfg v None = _hash_value sha256 cfg v
  /\ hash_pii_value sha256 cfg v (Some "") = _hash_value sha256 cfg v
  /\ exists h,
       hash_pii_value sha256 cfg v (Some salt) = "[HASH:" +:+ h +:+ "]"
       /\ String.length h = 8%nat
       /\ Str.all_chars Str.is_hex_char h = true.
Proof.
  intros Hlen. split; [reflexivity|]. split; [reflexivity|].
  unfold hash_pii_value. eexists. split; [reflexivity|]. split.
  - rewrite bytes_hex_length. unfold Str.take.
    rewrite substring_0_length by apply Hlen. reflexivity.
  - apply bytes_hex_digits.
Qed.

Lemma stars_length n : String.length (stars n) = n.
Proof. induction n as [|n IH]; [reflexivity|]. cbn. now rewrite IH. Qed.

Lemma digits_of_stars n : digits_of (stars n) = "".
Proof. induction n as [|n IH]; [reflexivity|exact IH]. Qed.

Lemma digits_of_all_digits s :
  Str.all_chars is_digit s = true -> digits_of s = s.
Proof.
  induction s as [|c r IH]; [reflexivity|]. cbn [Str.all_chars digits_of].
  intros H. apply andb_prop in H as [Hc Hr]. now rewrite Hc, IH.
Qed.

Lemma digits_of_digits s : Str.all_chars is_digit (digits_of s) = true.
Proof.
  induction s as [|c r IH]; [reflexivity|]. cbn [digits_of].
  destruct (is_digit c) eqn:E; [|exact IH].
  cbn [Str.all_chars]. now rewrite E, IH.
Qed.

Lemma drop_all_chars p n : forall s,
  Str.all_chars p s = true -> Str.all_chars p (Str.drop n s) = true.
Proof.
  induction n as [|n IH]; intros s H; [exact H|].
  destruct s as [|c r]; [reflexivity|]. cbn [Str.drop].
  apply IH. cbn [Str.all_chars] in H. now apply andb_prop in H as [_ H].
Qed.

Lemma drop_length n : forall s,
  String.length (Str.drop n s) = (String.length s - n)%nat.
Proof.
  induction n as [|n IH]; intros s; [cbn; lia|].
  destruct s as [|c r]; [reflexivity|]. cbn [Str.drop String.length].
  now rewrite IH.
Qed.

Lemma last4_shape s :
  (4 <= String.length (digits_of s))%nat ->
  String.length (last4 (digits_of s)) = 4%nat
  /\ digits_of (last4 (digits_of s)) = last4 (digits_of s).
Proof.
  intros H. unfold last4. split.
  - rewrite drop_length. lia.
  - apply digits_of_all_digits, drop_all_chars, digits_of_digits.
Qed.

(** X26: the phone and credit-card masks show the last four digits of
    their input and no other character of it.  With at least four
    digits in the input the result is the fixed pattern followed by
    those four digits (12 and 19 characters long); with fewer the result
    is a row of stars as long as the input and holds no digit at all. *)
Theorem masks_show_only_last_four_digits (s : string) :
  (if (String.length (digits_of s) <? 4)%nat
   then mask_phone s = stars (String.length s)
        /\ mask_credit_card s = stars (String.length s)
        /\ digits_of (mask_phone s) = ""
        /\ digits_of (mask_credit_card s) = ""
   else mask_phone s = "***-***-" +:+ last4 (digits_of s)
        /\ mask_credit_card s = "****-****-****-" +:+ last4 (digits_of s)
        /\ digits_of (mask_phone s) = last4 (digits_of s)
        /\ digits_of (mask_credit_card s) = last4 (digits_of s)
        /\ String.length (mask_phone s) = 12%nat
        /\ String.length (mask_credit_card s) = 19%nat).
Proof.
  unfold mask_phone, mask_credit_card.
  destruct (String.length (digits_of s) <? 4)%nat eqn:E.
  - repeat split; apply digits_of_stars.
  - apply Nat.ltb_ge in E. destruct (last4_shape s E) as [Hlen Hdig].
    repeat split.
    + change (digits_of ("***-***-" +:+ last4 (digits_of s)))
        with (digits_of (last4 (digits_of s))). exact Hdig.
    + change (digits_of ("****-****-****-" +:+ last4 (digits_of s)))
        with (digits_of (last4 (digits_of s))). exact Hdig.
    + rewrite string_length_app, Hlen. reflexivity.
    + rewrite string_length_app, Hlen. reflexivity.
Qed.

Lemma rsplit_once_none c s :
  rsplit_once c s = None <-> has_char c s = false.
Proof.
  induction s as [|d r IH]; [easy|]. cbn [rsplit_once has_char].
  destruct (rsplit_once c r) as [[b a]|].
  - split; [discriminate|]. intros H. apply orb_false_elim in H as [_ H].
    apply IH in H. discriminate H.
  - destruct (Ascii.eqb d c); cbn [orb]; [split; discriminate|].
    split; [intros _; now apply IH|reflexivity].
Qed.

Lemma rsplit_once_last c s1 s2 :
  has_char c s2 = false ->
  rsplit_once c (s1 +:+ String c s2) = Some (s1, s2).
Proof.
  intros H. apply rsplit_once_none in H.
  induction s1 as [|d r IH].
  - change (rsplit_once c (String c s2) = Some ("", s2)).
    cbn [rsplit_once]. now rewrite H, Ascii.eqb_refl.
  - change (rsplit_once c (String d (r +:+ String c s2))
            = Some (String d r, s2)).
    cbn [rsplit_once]. now rewrite IH.
Qed.

Lemma has_char_app c s1 s2 :
  has_char c (s1 +:+ String c s2) = true.
Proof.
  induction s1 as [|d r IH].
  - change (has_char c (String c s2) = true). cbn [has_char].
    now rewrite Ascii.eqb_refl.
  - change (has_char c (String d (r +:+ String c s2)) = true).
    cbn [has_char]. now rewrite IH, orb_true_r.
Qed.

(** X27: [mask_email] splits at the last [@].  The domain after it is
    kept as it is; a local part of two or more characters keeps its
    first character and has every other one replaced by a star, so the
    length of the address is preserved; a local part of one character
    is replaced by one star, and an empty one becomes a star.  An
    address without [@] is returned unchanged. *)
Theorem mask_email_keeps_domain (local domain : string) :
  has_char "@"%char domain = false ->
  mask_email (local +:+ "@" +:+ domain)
  = (match local with
     | String c (String _ _ as rest) =>
         String c (stars (String.length rest))
     | _ => "*"
     end) +:+ "@" +:+ domain
  /\ (local <> "" ->
      String.length (mask_email (local +:+ "@" +:+ domain))
      = String.length (local +:+ "@" +:+ domain))
  /\ mask_email domain = domain.
Proof.
  intros Hdom.
  assert (Heq : mask_email (local +:+ "@" +:+ domain)
                = (match local with
                   | String c (String _ _ as rest) =>
                       String c (stars (String.length rest))
                   | _ => "*"
                   end) +:+ "@" +:+ domain).
  { unfold mask_email.
    change (local +:+ "@" +:+ domain)
      with (local +:+ String "@"%char domain).
    rewrite has_char_app. cbn [negb].
    rewrite rsplit_once_last by exact Hdom.
    destruct local as [|c [|d r]]; reflexivity. }
  split; [exact Heq|]. split.
  - intros Hne. rewrite Heq, !string_length_app.
    destruct local as [|c [|d r]]; [contradiction|reflexivity|].
    cbn [String.length]. now rewrite stars_length.
  - unfold mask_email. now rewrite Hdom.
Qed.

End HashAndMasks.

(** ** The statements above at sample inputs *)


Lemma stats_after_shutdown_and_reset_witness :
  Sdk._initialized Sample.ready = true
  /\ Sdk._config Sample.ready = Some sample_config
  /\ Sdk.get_stats (Sdk.reset None None Sample.ready)
     = <["debug" := Sdk.SBool false]>
         (<["enabled" := Sdk.SBool false]>
            (<["initialized" := Sdk.SBool false]> ∅)).
Proof.
  split; [reflexivity|]. split; [reflexivity|].
  exact (proj2 (stats_after_shutdown_and_reset None None Sample.ready
                  sample_config eq_refl eq_refl)).
Defined.

Lemma first_init_wins_witness :
  Sdk._initialized Sdk.initial = false
  /\ snd (Sdk.init ∅ Sample.no_int Sample.no_float strict_without_key
            (fst (Sdk.init ∅ Sample.no_int Sample.no_float keyed_args
                    Sdk.initial)))
     = Return (Some sample_config).
Proof.
  split; [reflexivity|].
  exact (proj1 (proj2
    (first_init_wins ∅ Sample.no_int Sample.no_float keyed_args
       strict_without_key Sdk.initial (Some sample_config) eq_refl eq_refl))).
Defined.


Lemma span_ended_without_sdk_is_lost_witness :
  Sdk._initialized Sdk.initial = false
  /\ Decorators._ended Sample.span = false
  /\ snd (Decorators.end_ Sample.int16 2000 Sample.span Sdk.initial)
     = Sdk.initial.
Proof.
  split; [reflexivity|]. split; [reflexivity|].
  exact (proj1
    (span_ended_without_sdk_is_lost Sample.int16 ∅ Sample.no_int
       Sample.no_float keyed_args Sample.span Sdk.initial 2000 3000
       eq_refl eq_refl)).
Defined.




Lemma trace_joins_current_span_witness :
  Str.truthy (Decorators.trace_id Sample.span) = true
  /\ Decorators.trace_id
       (Decorators.trace (Some Sample.span) 7 8 1500 "step"
          Decorators.SpanKind.TOOL VNone None)
     = Decorators.trace_id Sample.span.
Proof.
  split; [reflexivity|].
  exact (proj1 (proj1
    (trace_joins_current_span Sample.span 7 8 1500 "step"
       Decorators.SpanKind.TOOL VNone None eq_refl))).
Defined.

Lemma sample_params_free (n : nat) : "arg_" +:+ pretty n ∉ ["query"; "limit"].
Proof.
  intros H. apply elem_of_cons in H as [H|H]; [discriminate H|].
  apply elem_of_cons in H as [H|H]; [discriminate H|].
  now apply elem_of_nil in H.
Qed.

Lemma sample_params_distinct : NoDup ["query"; "limit"].
Proof.
  apply NoDup_cons. split.
  - intros H. apply list_elem_of_singleton in H. discriminate H.
  - apply NoDup_singleton.
Qed.

Lemma sample_kwargs_distinct : NoDup (map fst [("limit", VInt 3)]).
Proof. apply NoDup_singleton. Qed.

Lemma capture_args_records_every_argument_witness :
  NoDup ["query"; "limit"]
  /\ Callback.dict_get "limit"
       (Decorators._capture_args ["query"; "limit"] [VStr "q"; VInt 10]
          [("limit", VInt 3)])
     = Some (VInt 3).
Proof.
  split; [exact sample_params_distinct|].
  apply (proj1
    (capture_args_records_every_argument ["query"; "limit"]
       [VStr "q"; VInt 10] [("limit", VInt 3)] sample_params_distinct
       sample_params_free sample_kwargs_distinct)).
  apply list_elem_of_singleton. reflexivity.
Defined.

Lemma disabled_sdk_drops_spans_witness :
  Sdk.i_enabled disabled_args = Some false
  /\ snd (Decorators.end_ Sample.int16 2000 Sample.span
            (fst (Sdk.init ∅ Sample.no_int Sample.no_float disabled_args
                    Sdk.initial)))
     = fst (Sdk.init ∅ Sample.no_int Sample.no_float disabled_args
              Sdk.initial).
Proof.
  split; [reflexivity|].
  exact (proj2 (proj2 (proj2
    (disabled_sdk_drops_spans Sample.int16 ∅ Sample.no_int Sample.no_float
       disabled_args Sdk.initial
       (Some (Sdk.build_config ∅ Sample.no_int Sample.no_float
                disabled_args))
       Sample.span 2000 eq_refl eq_refl eq_refl eq_refl)))).
Defined.


Lemma privacy_context_restores_settings_witness :
  Privacy.compile_all Sample.no_regex [inr Sample.never] = Some [Sample.never]
  /\ exists ctx,
       snd (Privacy.privacy_context.__enter__ Sample.no_regex
              (Privacy.privacy_context.__init__ (Some [inr Sample.never])
                 (Some ["input.password"]))
              Privacy.default_config) = Some ctx
       /\ Privacy.privacy_context.__exit__ ctx
            (fst (Privacy.privacy_context.__enter__ Sample.no_regex
                    (Privacy.privacy_context.__init__
                       (Some [inr Sample.never]) (Some ["input.password"]))
                    Privacy.default_config))
          = Privacy.default_config.
Proof.
  split; [reflexivity|].
  destruct (privacy_context_restores_settings Sample.no_regex
              (Some [inr Sample.never]) (Some ["input.password"])
              [Sample.never] Privacy.default_config Privacy.default_config
              eq_refl) as (ctx & H1 & _ & _ & H4 & _).
  exists ctx. split; [exact H1|exact H4].
Defined.

Lemma failing_privacy_context_leaves_patterns_witness :
  Sample.no_regex "(" = None
  /\ Privacy.redact_patterns
       (fst (Privacy.privacy_context.__enter__ Sample.no_regex
               (Privacy.privacy_context.__init__
                  (Some ([inr Sample.never] ++ [inl "("])) None)
               Privacy.default_config))
     = Privacy.redact_patterns Privacy.default_config ++ [Sample.never].
Proof.
  split; [reflexivity|].
  exact (proj1 (proj2
    (failing_privacy_context_leaves_patterns Sample.no_regex
       [inr Sample.never] [] "(" None [Sample.never] Privacy.default_config
       eq_refl eq_refl))).
Defined.

Lemma hash_pii_uses_configured_salt_witness :
  (4 <= String.length (short_digest "user@example.com"))%nat
  /\ Privacy.hash_pii_value short_digest Privacy.default_config
       "user@example.com" None
     = Privacy._hash_value short_digest Privacy.default_config
         "user@example.com".
Proof.
  split; [exact (le_n 4)|].
  exact (proj1
    (hash_pii_uses_configured_salt short_digest Privacy.default_config
       "user@example.com" "pepper" (fun _ => le_n 4))).
Defined.

Lemma mask_email_keeps_domain_witness :
  Privacy.has_char "@"%char "example.com" = false
  /\ Privacy.mask_email "john@example.com" = "j***@example.com".
Proof.
  split; [reflexivity|].
  exact (proj1 (mask_email_keeps_domain "john" "example.com" eq_refl)).
Defined.
